(** * AC dashboard: ingestion queue, relay control, history and persistence

    A shallow embedding of [ac_dashboard_mqtt.py]: the values [json.loads]
    hands to the dashboard, the Python built-ins the control loop applies to
    them, the bounded history deques, the [DataManager] table, the MQTT
    callbacks that feed the queue, and [ACDashboard.process_mqtt_queue].

    Python statements mutate the dashboard object in place and may raise; a
    statement is therefore a function from the dashboard to an outcome
    (returned or raised) together with the dashboard as it stands at that
    point.  What the environment decides (the clock, the storage engine, the
    JSON parser, [int] applied to text) enters as explicit input. *)

From Stdlib Require Import QArith.
From stdpp Require Import gmap strings list.

Set Warnings "-register-all".
#[local] Open Scope Z_scope.

(** ** Python values *)

(** A Python [float]: a finite value (every finite double is a rational
    number) or one of the three special values [json.loads] accepts as
    [Infinity], [-Infinity] and [NaN]. *)
Inductive pyfloat :=
| Finite (q : Q)
| PosInf
| NegInf
| NaN.

(** The objects [json.loads] produces. *)
Inductive pyval :=
| PNone
| PBool (b : bool)
| PInt (z : Z)
| PFloat (f : pyfloat)
| PStr (s : string)
| PList (l : list pyval)
| PDict (d : gmap string pyval).

Inductive exn :=
| ValueError
| TypeError
| OverflowError
| sqlite3_Error
| queue_Empty.

Module Py.

(** [d.get(k, dflt)] *)
Definition get (d : gmap string pyval) (k : string) (dflt : pyval) : pyval :=
  default dflt (d !! k).

(** [v == "text"] for a string literal on the right. *)
Definition eq_str (v : pyval) (s : string) : bool :=
  match v with
  | PStr s' => bool_decide (s' = s)
  | _ => false
  end.

(** [v is not None] *)
Definition is_not_None (v : pyval) : bool :=
  match v with
  | PNone => false
  | _ => true
  end.

Definition float_truth (f : pyfloat) : bool :=
  match f with
  | Finite q => negb (Qnum q =? 0)
  | _ => true
  end.

(** Truth value of an object, as [if], [not] and [or] test it. *)
Definition truth (v : pyval) : bool :=
  match v with
  | PNone => false
  | PBool b => b
  | PInt z => negb (z =? 0)
  | PFloat f => float_truth f
  | PStr s => negb (bool_decide (s = EmptyString))
  | PList l => negb (bool_decide (l = []))
  | PDict d => negb (bool_decide (d = ∅))
  end.

(** [not v] *)
Definition not_ (v : pyval) : pyval := PBool (negb (truth v)).

(** [a or b]: the left operand when it is true, the right one otherwise. *)
Definition or_ (a b : pyval) : pyval := if truth a then a else b.

(** An [int] converts to [float] unless it rounds (half to even) beyond
    the largest double, [2^1024 - 2^971]. *)
Definition int_fits_float (z : Z) : bool := Z.abs z <? 2 ^ 1024 - 2 ^ 970.

(** Formatting with the specification [.1f], as in [f"{v:.1f}"]: only
    whether it raises is modelled ([None]: it produced a text). *)
Definition format_1f (v : pyval) : option exn :=
  match v with
  | PBool _ | PFloat _ => None
  | PInt z => if int_fits_float z then None else Some OverflowError
  | PStr _ => Some ValueError
  | PNone | PList _ | PDict _ => Some TypeError
  end.

Definition float_ge (f : pyfloat) (c : Q) : bool :=
  match f with
  | Finite q => Qle_bool c q
  | PosInf => true
  | NegInf | NaN => false
  end.

(** [v >= c] for a float constant [c]; numbers compare by value, anything
    else raises [TypeError]. *)
Definition ge_const (v : pyval) (c : Q) : exn + bool :=
  match v with
  | PBool b => inr (Qle_bool c (inject_Z (Z.b2z b)))
  | PInt z => inr (Qle_bool c (inject_Z z))
  | PFloat f => inr (float_ge f c)
  | _ => inl TypeError
  end.

(** [int(v)].  On text the result is the built-in's, taken as the
    parameter [int_of_str] ([None]: it raises [ValueError]). *)
Definition int_ (int_of_str : string → option Z) (v : pyval) : exn + Z :=
  match v with
  | PBool b => inr (Z.b2z b)
  | PInt z => inr z
  | PFloat (Finite q) => inr (Z.quot (Qnum q) (Z.pos (Qden q)))
  | PFloat NaN => inl ValueError
  | PFloat _ => inl OverflowError
  | PStr s => match int_of_str s with Some z => inr z | None => inl ValueError end
  | PNone | PList _ | PDict _ => inl TypeError
  end.

End Py.

(** ** CONFIG *)

Definition TEMP_THRESHOLD : Q := 30.

(** ** collections.deque with a [maxlen] *)

Record deque (A : Type) := { maxlen : nat; items : list A }.
Arguments maxlen {A} _.
Arguments items {A} _.

Definition deque_new {A} (n : nat) : deque A := {| maxlen := n; items := [] |}.

(** [d.append(x)]: the item goes to the right end; when that makes the deque
    longer than [maxlen], one item is discarded from the left end. *)
Definition deque_append {A} (x : A) (d : deque A) : deque A :=
  let l := items d ++ [x] in
  {| maxlen := maxlen d;
     items := if (maxlen d <? length l)%nat then drop 1 l else l |}.

(** ** The clock *)

(** What [datetime.now()] returns. *)
Record datetime := {
  year : nat; month : nat; day : nat;
  hour : nat; minute : nat; second : nat; microsecond : nat
}.

(** The text [d.strftime(fmt)], kept as the format applied to the instant. *)
Inductive timestr := strftime (fmt : string) (d : datetime).

(** ** DATABASE *)

(** [float(z)] for an [int]: the nearest double, ties to even; exact up to
    2^53 in absolute value. The result is given by its (integer) value. *)
Definition float_of_int (z : Z) : Z :=
  let a := Z.abs z in
  let e := Z.log2 a - 52 in
  if e <=? 0 then z
  else
    let q := a / 2 ^ e in
    let r := a mod 2 ^ e in
    let half := 2 ^ (e - 1) in
    let q' := if r <? half then q
              else if half <? r then q + 1
              else if Z.even q then q else q + 1 in
    Z.sgn z * (q' * 2 ^ e).

(** What a [REAL] column holds, and gives back on [SELECT]: [NULL]
    ([None]), a float, or what the column makes of a text (a float when the
    text reads as a number, the text itself otherwise). *)
Inductive sql_value :=
| SqlNull
| SqlReal (f : pyfloat)
| SqlRealOfText (s : string).

(** What a [REAL] column stores for the object bound to it: a float as it
    is, except [NaN], which is stored as [NULL]; an [int] or a [bool] as the
    float of its value. *)
Definition real_affinity (v : pyval) : sql_value :=
  match v with
  | PFloat NaN => SqlNull
  | PFloat f => SqlReal f
  | PInt z => SqlReal (Finite (inject_Z (float_of_int z)))
  | PBool b => SqlReal (Finite (inject_Z (Z.b2z b)))
  | PStr s => SqlRealOfText s
  | PNone | PList _ | PDict _ => SqlNull
  end.

(** A row of [sensor_data] as the columns hold it: the [id], the text of the
    timestamp, the two [REAL] values and the integer [relay_status]. *)
Record db_row := {
  row_id : nat;
  timestamp : timestr;
  temperature : sql_value;
  humidity : sql_value;
  relay_status : Z
}.

(** The table as the connection of the dashboard sees it, in insertion
    order, rows of its own transaction not yet committed included; and the
    largest [id] handed out so far (the column is [AUTOINCREMENT]). *)
Record DataManager := { rows : list db_row; last_id : nat }.

Definition int64 (z : Z) : bool := (- 2 ^ 63 <=? z) && (z <? 2 ^ 63).

(** Binding a Python object to a [?] of the statement: [None], numbers and
    text are accepted, an [int] outside 64 bits raises [OverflowError], any
    other object is refused by the driver. *)
Definition sql_bind (v : pyval) : option exn :=
  match v with
  | PNone | PBool _ | PFloat _ | PStr _ => None
  | PInt z => if int64 z then None else Some OverflowError
  | PList _ | PDict _ => Some sqlite3_Error
  end.

(** [DataManager.insert]: [cur.execute] of the [INSERT], then
    [conn.commit]. [fault] tells whether the engine fails on this call
    (locked or unavailable file, full disk) and [at_commit] where: in
    [execute], which then inserts nothing, or in [commit], which leaves the
    row inserted in the open transaction, visible to this connection. The
    result is the exception raised, if any, and the table as it is then. *)
Definition DataManager_insert (fault at_commit : bool) (ts : timestr) (t h : pyval) (r : Z)
    (m : DataManager) : option exn * DataManager :=
  match sql_bind t with
  | Some e => (Some e, m)
  | None =>
    match sql_bind h with
    | Some e => (Some e, m)
    | None =>
      if negb (int64 r) then (Some OverflowError, m)
      else if fault && negb at_commit then (Some sqlite3_Error, m)
      else
        (if fault then Some sqlite3_Error else None,
         {| rows := rows m ++ [ {| row_id := S (last_id m); timestamp := ts;
                                   temperature := real_affinity t;
                                   humidity := real_affinity h;
                                   relay_status := r |} ];
            last_id := S (last_id m) |})
    end
  end.


(** ** DASHBOARD state *)

Inductive colour := gray | green.

(** The two texts [log] is called with by the control loop. *)
Inductive notice :=
| HighTemperature (t : pyval)
| ButtonPressReceived (relay : bool).

(** The fields of [ACDashboard] the control loop reads or writes.  A label
    holds the number whose [.1f] rendering it shows; [list_logs] holds the
    logged lines, each with the instant [log] stamped it with.
    [clock_reads] and [insert_calls] count the calls of [datetime.now()] and
    of [DataManager.insert] made so far: they index the environment's
    answers. *)
Record ACDashboard := {
  db : DataManager;
  mqtt_queue : list pyval;
  temp : pyval;
  hum : pyval;
  relay_on : pyval;
  max_points : nat;
  times : deque timestr;
  temps : deque pyval;
  hums : deque pyval;
  lbl_temp : pyval;
  lbl_hum : pyval;
  relay_indicator : colour;
  list_logs : list (datetime * notice);
  clock_reads : nat;
  insert_calls : nat
}.

Definition set_db (x : DataManager) (s : ACDashboard) : ACDashboard :=
  {| db := x; mqtt_queue := mqtt_queue s; temp := temp s; hum := hum s;
     relay_on := relay_on s; max_points := max_points s; times := times s;
     temps := temps s; hums := hums s; lbl_temp := lbl_temp s; lbl_hum := lbl_hum s;
     relay_indicator := relay_indicator s; list_logs := list_logs s;
     clock_reads := clock_reads s; insert_calls := insert_calls s |}.

Definition set_mqtt_queue (x : list pyval) (s : ACDashboard) : ACDashboard :=
  {| db := db s; mqtt_queue := x; temp := temp s; hum := hum s;
     relay_on := relay_on s; max_points := max_points s; times := times s;
     temps := temps s; hums := hums s; lbl_temp := lbl_temp s; lbl_hum := lbl_hum s;
     relay_indicator := relay_indicator s; list_logs := list_logs s;
     clock_reads := clock_reads s; insert_calls := insert_calls s |}.

Definition set_temp (x : pyval) (s : ACDashboard) : ACDashboard :=
  {| db := db s; mqtt_queue := mqtt_queue s; temp := x; hum := hum s;
     relay_on := relay_on s; max_points := max_points s; times := times s;
     temps := temps s; hums := hums s; lbl_temp := lbl_temp s; lbl_hum := lbl_hum s;
     relay_indicator := relay_indicator s; list_logs := list_logs s;
     clock_reads := clock_reads s; insert_calls := insert_calls s |}.

Definition set_hum (x : pyval) (s : ACDashboard) : ACDashboard :=
  {| db := db s; mqtt_queue := mqtt_queue s; temp := temp s; hum := x;
     relay_on := relay_on s; max_points := max_points s; times := times s;
     temps := temps s; hums := hums s; lbl_temp := lbl_temp s; lbl_hum := lbl_hum s;
     relay_indicator := relay_indicator s; list_logs := list_logs s;
     clock_reads := clock_reads s; insert_calls := insert_calls s |}.

Definition set_relay_on (x : pyval) (s : ACDashboard) : ACDashboard :=
  {| db := db s; mqtt_queue := mqtt_queue s; temp := temp s; hum := hum s;
     relay_on := x; max_points := max_points s; times := times s;
     temps := temps s; hums := hums s; lbl_temp := lbl_temp s; lbl_hum := lbl_hum s;
     relay_indicator := relay_indicator s; list_logs := list_logs s;
     clock_reads := clock_reads s; insert_calls := insert_calls s |}.

Definition set_times (x : deque timestr) (s : ACDashboard) : ACDashboard :=
  {| db := db s; mqtt_queue := mqtt_queue s; temp := temp s; hum := hum s;
     relay_on := relay_on s; max_points := max_points s; times := x;
     temps := temps s; hums := hums s; lbl_temp := lbl_temp s; lbl_hum := lbl_hum s;
     relay_indicator := relay_indicator s; list_logs := list_logs s;
     clock_reads := clock_reads s; insert_calls := insert_calls s |}.

Definition set_temps (x : deque pyval) (s : ACDashboard) : ACDashboard :=
  {| db := db s; mqtt_queue := mqtt_queue s; temp := temp s; hum := hum s;
     relay_on := relay_on s; max_points := max_points s; times := times s;
     temps := x; hums := hums s; lbl_temp := lbl_temp s; lbl_hum := lbl_hum s;
     relay_indicator := relay_indicator s; list_logs := list_logs s;
     clock_reads := clock_reads s; insert_calls := insert_calls s |}.

Definition set_hums (x : deque pyval) (s : ACDashboard) : ACDashboard :=
  {| db := db s; mqtt_queue := mqtt_queue s; temp := temp s; hum := hum s;
     relay_on := relay_on s; max_points := max_points s; times := times s;
     temps := temps s; hums := x; lbl_temp := lbl_temp s; lbl_hum := lbl_hum s;
     relay_indicator := relay_indicator s; list_logs := list_logs s;
     clock_reads := clock_reads s; insert_calls := insert_calls s |}.

Definition set_lbl_temp (x : pyval) (s : ACDashboard) : ACDashboard :=
  {| db := db s; mqtt_queue := mqtt_queue s; temp := temp s; hum := hum s;
     relay_on := relay_on s; max_points := max_points s; times := times s;
     temps := temps s; hums := hums s; lbl_temp := x; lbl_hum := lbl_hum s;
     relay_indicator := relay_indicator s; list_logs := list_logs s;
     clock_reads := clock_reads s; insert_calls := insert_calls s |}.

Definition set_lbl_hum (x : pyval) (s : ACDashboard) : ACDashboard :=
  {| db := db s; mqtt_queue := mqtt_queue s; temp := temp s; hum := hum s;
     relay_on := relay_on s; max_points := max_points s; times := times s;
     temps := temps s; hums := hums s; lbl_temp := lbl_temp s; lbl_hum := x;
     relay_indicator := relay_indicator s; list_logs := list_logs s;
     clock_reads := clock_reads s; insert_calls := insert_calls s |}.

Definition set_relay_indicator (x : colour) (s : ACDashboard) : ACDashboard :=
  {| db := db s; mqtt_queue := mqtt_queue s; temp := temp s; hum := hum s;
     relay_on := relay_on s; max_points := max_points s; times := times s;
     temps := temps s; hums := hums s; lbl_temp := lbl_temp s; lbl_hum := lbl_hum s;
     relay_indicator := x; list_logs := list_logs s;
     clock_reads := clock_reads s; insert_calls := insert_calls s |}.

Definition set_list_logs (x : list (datetime * notice)) (s : ACDashboard) : ACDashboard :=
  {| db := db s; mqtt_queue := mqtt_queue s; temp := temp s; hum := hum s;
     relay_on := relay_on s; max_points := max_points s; times := times s;
     temps := temps s; hums := hums s; lbl_temp := lbl_temp s; lbl_hum := lbl_hum s;
     relay_indicator := relay_indicator s; list_logs := x;
     clock_reads := clock_reads s; insert_calls := insert_calls s |}.

Definition set_clock_reads (x : nat) (s : ACDashboard) : ACDashboard :=
  {| db := db s; mqtt_queue := mqtt_queue s; temp := temp s; hum := hum s;
     relay_on := relay_on s; max_points := max_points s; times := times s;
     temps := temps s; hums := hums s; lbl_temp := lbl_temp s; lbl_hum := lbl_hum s;
     relay_indicator := relay_indicator s; list_logs := list_logs s;
     clock_reads := x; insert_calls := insert_calls s |}.

Definition set_insert_calls (x : nat) (s : ACDashboard) : ACDashboard :=
  {| db := db s; mqtt_queue := mqtt_queue s; temp := temp s; hum := hum s;
     relay_on := relay_on s; max_points := max_points s; times := times s;
     temps := temps s; hums := hums s; lbl_temp := lbl_temp s; lbl_hum := lbl_hum s;
     relay_indicator := relay_indicator s; list_logs := list_logs s;
     clock_reads := clock_reads s; insert_calls := x |}.

(** [ACDashboard.__init__]: [store] is the table as [sqlite3.connect] finds
    it in the file, [pending] what the MQTT client has queued by then (its
    constructor queues a [connect_error] event when the broker is
    unreachable). *)
Definition ACDashboard_init (store : DataManager) (pending : list pyval) : ACDashboard :=
  {| db := store; mqtt_queue := pending;
     temp := PFloat (Finite 24); hum := PFloat (Finite 50); relay_on := PBool false;
     max_points := 200;
     times := deque_new 200; temps := deque_new 200; hums := deque_new 200;
     lbl_temp := PFloat (Finite 24); lbl_hum := PFloat (Finite 50);
     relay_indicator := gray; list_logs := [];
     clock_reads := 0; insert_calls := 0 |}.

(** ** Statements *)

Inductive outcome (A : Type) :=
| Returned (a : A)
| Raised (e : exn).
Arguments Returned {A} a.
Arguments Raised {A} e.

(** A statement runs on the dashboard and leaves it as it is when the
    statement returns or raises. *)
Definition stmt (A : Type) : Type := ACDashboard → outcome A * ACDashboard.

Definition ret {A} (a : A) : stmt A := λ s, (Returned a, s).

Definition raise {A} (e : exn) : stmt A := λ s, (Raised e, s).

Definition bind {A B} (c : stmt A) (k : A → stmt B) : stmt B :=
  λ s, match c s with
       | (Returned a, s') => k a s'
       | (Raised e, s') => (Raised e, s')
       end.

Definition read {A} (f : ACDashboard → A) : stmt A := λ s, (Returned (f s), s).

Definition assign (f : ACDashboard → ACDashboard) : stmt unit := λ s, (Returned tt, f s).

(** Lifts of the built-ins that may raise. *)
Definition try_ (r : option exn) : stmt unit :=
  match r with
  | None => ret tt
  | Some e => raise e
  end.

Definition eval {A} (r : exn + A) : stmt A :=
  match r with
  | inr a => ret a
  | inl e => raise e
  end.

Notation "x <~ c ;; k" := (bind c (λ x, k))
  (at level 100, c at next level, right associativity, only parsing).
Notation "c ;;; k" := (bind c (λ _, k))
  (at level 100, right associativity, only parsing).

(** What the environment answers during a run: the instant returned by the
    [k]-th call of [datetime.now()], whether the storage engine fails on the
    [k]-th call of [insert] and, when it does, whether in [commit] rather
    than in [execute], and the built-in [int] on text. *)
Record world := {
  now : nat → datetime;
  storage_fault : nat → bool;
  fault_at_commit : nat → bool;
  int_of_str : string → option Z
}.

(** ** MQTT callbacks: the producers of the queue *)

(** [queue.Queue.put] *)
Definition put (m : pyval) (s : ACDashboard) : ACDashboard :=
  set_mqtt_queue (mqtt_queue s ++ [m]) s.

(** [queue.Queue.empty] *)
Definition empty (s : ACDashboard) : bool := bool_decide (mqtt_queue s = []).

(** [queue.Queue.get_nowait] *)
Definition get_nowait : stmt pyval :=
  λ s, match mqtt_queue s with
       | [] => (Raised queue_Empty, s)
       | m :: q => (Returned m, set_mqtt_queue q s)
       end.

(** An MQTT message as [on_message] sees it: [json.loads] returned [data],
    or it raised and the decoded text [payload] is all there is. *)
Inductive inbound :=
| Decoded (data : pyval)
| Undecodable (payload : string).

(** [MqttClientWrapper.on_message] *)
Definition on_message (msg : inbound) (s : ACDashboard) : ACDashboard :=
  let data := match msg with
              | Decoded data => data
              | Undecodable payload => PDict {[ "raw"%string := PStr payload ]}
              end in
  put data s.

(** [MqttClientWrapper.on_connect] *)
Definition on_connect (rc : Z) (s : ACDashboard) : ACDashboard :=
  put (PDict (<[ "type"%string := PStr "sys" ]>
             (<[ "event"%string := PStr (if rc =? 0 then "connected" else "connect_failed") ]>
             {[ "rc"%string := PInt rc ]}))) s.

(** [MqttClientWrapper.on_disconnect] *)
Definition on_disconnect (rc : Z) (s : ACDashboard) : ACDashboard :=
  put (PDict (<[ "type"%string := PStr "sys" ]>
             (<[ "event"%string := PStr "disconnected" ]>
             {[ "rc"%string := PInt rc ]}))) s.

(** The message [simulate_sensor] publishes. *)
Definition sensor_fields (t h : pyval) : gmap string pyval :=
  <[ "type"%string := PStr "sensor" ]>
  (<[ "temperature"%string := t ]>
  {[ "humidity"%string := h ]}).

Definition sensor_data (t h : pyval) : pyval := PDict (sensor_fields t h).

(** The message [manual_button_pressed] publishes. *)
Definition button_data : pyval := PDict {[ "type"%string := PStr "button_pressed" ]}.

(** ** The control loop *)

Section ControlLoop.

Variable w : world.

(** [datetime.now()] *)
Definition datetime_now : stmt datetime :=
  λ s, (Returned (now w (clock_reads s)), set_clock_reads (S (clock_reads s)) s).

(** [ACDashboard.log] *)
Definition log (text : notice) : stmt unit :=
  ts <~ datetime_now ;;
  assign (λ s, set_list_logs (list_logs s ++ [(ts, text)]) s).

(** [self.db.insert(...)] *)
Definition db_insert (ts : timestr) (t h : pyval) (r : Z) : stmt unit :=
  λ s, let s' := set_insert_calls (S (insert_calls s)) s in
       match DataManager_insert (storage_fault w (insert_calls s))
               (fault_at_commit w (insert_calls s)) ts t h r (db s) with
       | (None, m) => (Returned tt, set_db m s')
       | (Some e, m) => (Raised e, set_db m s')
       end.

(** [self.relay_indicator.setStyleSheet(... if self.relay_on else ...)] *)
Definition show_relay : stmt unit :=
  assign (λ s, set_relay_indicator (if Py.truth (relay_on s) then green else gray) s).

(** Lines 226-229: the current values and their labels. *)
Definition show_reading (t h : pyval) : stmt unit :=
  assign (set_temp t) ;;;
  assign (set_hum h) ;;;
  try_ (Py.format_1f t) ;;;
  assign (set_lbl_temp t) ;;;
  try_ (Py.format_1f h) ;;;
  assign (set_lbl_hum h).

(** Lines 230-232: one entry at the right end of each history deque. *)
Definition record_history (t h : pyval) : stmt unit :=
  ts <~ datetime_now ;;
  assign (λ s, set_times (deque_append (strftime "%H:%M:%S" ts) (times s)) s) ;;;
  assign (λ s, set_temps (deque_append t (temps s)) s) ;;;
  assign (λ s, set_hums (deque_append h (hums s)) s).

(** [# Warnings] *)
Definition warnings (t : pyval) : stmt unit :=
  hot <~ eval (Py.ge_const t TEMP_THRESHOLD) ;;
  if hot then try_ (Py.format_1f t) ;;; log (HighTemperature t) else ret tt.

(** [# Auto relay] *)
Definition auto_relay (msg : gmap string pyval) (t : pyval) : stmt unit :=
  auto_on <~ eval (Py.ge_const t TEMP_THRESHOLD) ;;
  assign (set_relay_on (Py.or_ (PBool auto_on) (Py.get msg "manual_override" (PBool false)))) ;;;
  show_relay.

(** [# Save DB] *)
Definition save_db (t h : pyval) : stmt unit :=
  ts <~ datetime_now ;;
  relay <~ read relay_on ;;
  status <~ eval (Py.int_ (int_of_str w) relay) ;;
  db_insert (strftime "%Y-%m-%d %H:%M:%S" ts) t h status.

(** The branch of the loop body for [msg.get("type")=="sensor"]. *)
Definition sensor_reading (msg : gmap string pyval) : stmt unit :=
  let t := Py.get msg "temperature" PNone in
  let h := Py.get msg "humidity" PNone in
  if Py.is_not_None t && Py.is_not_None h then
    show_reading t h ;;;
    record_history t h ;;;
    warnings t ;;;
    auto_relay msg t ;;;
    save_db t h
  else ret tt.

(** The branch of the loop body for [msg.get("type")=="button_pressed"]. *)
Definition button_press : stmt unit :=
  assign (λ s, set_relay_on (Py.not_ (relay_on s)) s) ;;;
  show_relay ;;;
  relay <~ read relay_on ;;
  log (ButtonPressReceived (Py.truth relay)).

(** The body of the loop of [process_mqtt_queue], for the message [msg]
    just taken from the queue. *)
Definition handle_message (msg : pyval) : stmt unit :=
  match msg with
  | PDict d =>
    (if Py.eq_str (Py.get d "type" PNone) "sensor" then sensor_reading d else ret tt) ;;;
    (if Py.eq_str (Py.get d "type" PNone) "button_pressed" then button_press else ret tt)
  | _ => ret tt
  end.

(** [while not self.mqtt_queue.empty(): msg = self.mqtt_queue.get_nowait(); ...]
    The body never puts into the queue, so the loop makes at most as
    many turns as there are messages queued when it starts: [n] bounds
    the turns. *)
Fixpoint drain (n : nat) : stmt unit :=
  λ s, if empty s then (Returned tt, s)
       else match n with
            | O => (Returned tt, s)
            | S n' => (msg <~ get_nowait ;; handle_message msg ;;; drain n') s
            end.

(** [ACDashboard.process_mqtt_queue] *)
Definition process_mqtt_queue : stmt unit :=
  λ s, drain (length (mqtt_queue s)) s.

End ControlLoop.

(** The dashboard after the queue received [msgs], in this order. *)
Definition enqueue_all (msgs : list pyval) (s : ACDashboard) : ACDashboard :=
  foldl (λ s m, put m s) s msgs.

(** The loop body run on each of [msgs] in turn, first to last, each one
    once, up to the first that raises; the third component is what was not
    reached. *)
Fixpoint handle_each (w : world) (msgs : list pyval) (s : ACDashboard)
    : outcome unit * ACDashboard * list pyval :=
  match msgs with
  | [] => (Returned tt, s, [])
  | m :: rest =>
    match handle_message w m s with
    | (Returned _, s') => handle_each w rest s'
    | (Raised e, s') => (Raised e, s', rest)
    end
  end.

(** The dashboard after the loop body ran on each of [msgs], whatever the
    outcome of each run: the states the dashboard goes through over any
    number of timer ticks. *)
Definition after_messages (w : world) (msgs : list pyval) (s : ACDashboard) : ACDashboard :=
  foldl (λ s m, (handle_message w m s).2) s msgs.

(** [t >= TEMP_THRESHOLD] for a number [t]. *)
Definition ge_threshold (t : pyval) : bool :=
  match Py.ge_const t TEMP_THRESHOLD with
  | inr b => b
  | inl _ => false
  end.

(** An environment for the examples: the clock stands still, the storage
    engine never fails, [int] accepts no text. *)
Definition noon : datetime :=
  {| year := 2024; month := 6; day := 1; hour := 12; minute := 0; second := 0;
     microsecond := 0 |}.

Definition calm : world :=
  {| now := λ _, noon; storage_fault := λ _, false; fault_at_commit := λ _, false;
     int_of_str := λ _, None |}.

(** The same environment with a storage engine that fails on the first
    [insert] only, in [execute]. *)
Definition faulty : world :=
  {| now := λ _, noon; storage_fault := λ k, bool_decide (k = 0%nat);
     fault_at_commit := λ _, false; int_of_str := λ _, None |}.


Definition empty_store : DataManager := {| rows := []; last_id := 0 |}.

Definition fresh : ACDashboard := ACDashboard_init empty_store [].

Definition real (q : Q) : pyval := PFloat (Finite q).

(** ** The rest of the timer tick *)

(** The event [MqttClientWrapper.__init__] queues when [connect] raises
    [error]. *)
Definition connect_error (error : string) : pyval :=
  PDict (<[ "type"%string := PStr "sys" ]>
        (<[ "event"%string := PStr "connect_error" ]>
        {[ "error"%string := PStr error ]})).

(** What [MqttClientWrapper.__init__] leaves in the queue: nothing, or the
    [connect_error] event when [connect] raised [failure]. *)
Definition MqttClientWrapper_init (failure : option string) : list pyval :=
  match failure with
  | None => []
  | Some error => [connect_error error]
  end.

(** [MqttClientWrapper.publish]: the message leaves for the broker (it
    comes back, if at all, through [on_message]); [failure] is the text of
    the exception [json.dumps] or the client raised, if any. *)
Definition publish (failure : option string) (s : ACDashboard) : ACDashboard :=
  match failure with
  | None => s
  | Some error =>
    put (PDict (<[ "type"%string := PStr "sys" ]>
               (<[ "event"%string := PStr "publish_error" ]>
               {[ "error"%string := PStr error ]}))) s
  end.

(** [ACDashboard.simulate_sensor]: [t] and [h] are the two rounded draws of
    [random.uniform]. *)
Definition simulate_sensor (t h : Q) (failure : option string) : stmt unit :=
  assign (set_temp (real t)) ;;;
  assign (set_hum (real h)) ;;;
  assign (publish failure).

(** One call of [ax.plot(x, y, label=...)]. *)
Record plot_call := { plot_x : list nat; plot_y : list pyval; plot_label : string }.

(** [ACDashboard.update_plot]: the two curves it draws. *)
Definition update_plot (s : ACDashboard) : list plot_call :=
  let x := seq 0 (length (items (temps s))) in
  [ {| plot_x := x; plot_y := items (temps s); plot_label := "Temperature" |};
    {| plot_x := x; plot_y := items (hums s); plot_label := "Humidity" |} ].

(** [ACDashboard.on_update], one timer tick; the value returned is what
    [update_plot] drew. *)
Definition on_update (w : world) (t h : Q) (failure : option string)
    : stmt (list plot_call) :=
  simulate_sensor t h failure ;;;
  process_mqtt_queue w ;;;
  read update_plot.

(** ** Notions the properties are stated with *)

(** A statement preserves the field (or any observation) [f]. *)
Definition preserves {A B} (f : ACDashboard → A) (c : stmt B) : Prop :=
  ∀ s, f (c s).2 = f s.

(** A statement neither reads nor writes the queue. *)
Definition queue_blind {A} (c : stmt A) : Prop :=
  ∀ q s, c (set_mqtt_queue q s) = ((c s).1, set_mqtt_queue q (c s).2).

(** A message the two tests of the loop body both turn down. *)
Definition unrecognised (msg : pyval) : Prop :=
  ∀ d, msg = PDict d →
       Py.get d "type" PNone ≠ PStr "sensor" ∧ Py.get d "type" PNone ≠ PStr "button_pressed".

(** The dashboard after lines 226-237 ran on the numbers [t] and [h]. *)
Definition shown (t h : pyval) (s : ACDashboard) : ACDashboard :=
  set_lbl_hum h (set_lbl_temp t (set_hum h (set_temp t s))).

Definition recorded (w : world) (t h : pyval) (s : ACDashboard) : ACDashboard :=
  set_hums (deque_append h (hums s))
    (set_temps (deque_append t (temps s))
       (set_times (deque_append (strftime "%H:%M:%S" (now w (clock_reads s))) (times s))
          (set_clock_reads (S (clock_reads s)) s))).

Definition warned (w : world) (t : pyval) (s : ACDashboard) : ACDashboard :=
  if ge_threshold t
  then set_list_logs (list_logs s ++ [(now w (clock_reads s), HighTemperature t)])
         (set_clock_reads (S (clock_reads s)) s)
  else s.

Definition relayed (d : gmap string pyval) (t : pyval) (s : ACDashboard) : ACDashboard :=
  let r := Py.or_ (PBool (ge_threshold t)) (Py.get d "manual_override" (PBool false)) in
  set_relay_indicator (if Py.truth r then green else gray) (set_relay_on r s).

Definition applied (w : world) (d : gmap string pyval) (t h : pyval) (s : ACDashboard)
    : ACDashboard :=
  relayed d t (warned w t (recorded w t h (shown t h s))).

(** What one run of the loop body does to the history: nothing, or one
    entry at the right end of each of the three deques. *)
Definition history_step (s s' : ACDashboard) (m : pyval) : Prop :=
  (times s' = times s ∧ temps s' = temps s ∧ hums s' = hums s)
  ∨ (∃ d ts t h,
       m = PDict d ∧ d !! "type"%string = Some (PStr "sensor")
       ∧ d !! "temperature"%string = Some t ∧ d !! "humidity"%string = Some h
       ∧ Py.format_1f t = None ∧ Py.format_1f h = None
       ∧ times s' = deque_append ts (times s)
       ∧ temps s' = deque_append t (temps s)
       ∧ hums s' = deque_append h (hums s)).

(** The invariant of the history: the three deques have the capacity
    [max_points], which is 200, never hold more, and have one length. *)
Definition history_inv (s : ACDashboard) : Prop :=
  max_points s = 200%nat
  ∧ maxlen (times s) = max_points s
  ∧ maxlen (temps s) = max_points s
  ∧ maxlen (hums s) = max_points s
  ∧ (length (items (times s)) ≤ max_points s)%nat
  ∧ length (items (temps s)) = length (items (times s))
  ∧ length (items (hums s)) = length (items (times s)).

(** A number the table takes: a [bool], a [float], or an [int] of 64 bits. *)
Definition sql_number (v : pyval) : bool :=
  match v with
  | PBool _ | PFloat _ => true
  | PInt z => int64 z
  | _ => false
  end.


(** The indicator shows the relay: green when [relay_on] is true, gray
    otherwise. *)
Definition indicator_inv (s : ACDashboard) : Prop :=
  relay_indicator s = if Py.truth (relay_on s) then green else gray.

(** A number, as far as the display goes: [.1f] formats it. *)
Definition is_number (v : pyval) : Prop := Py.format_1f v = None.

(** The [id]s of the table increase strictly in insertion order and none
    exceeds the last one handed out. *)
Definition store_ok (m : DataManager) : Prop :=
  (∀ i j ri rj, (i < j)%nat → rows m !! i = Some ri → rows m !! j = Some rj →
                (row_id ri < row_id rj)%nat)
  ∧ (∀ i r, rows m !! i = Some r → (row_id r ≤ last_id m)%nat).

(** * Properties *)

(** ** Statements: outcomes and frames *)

Section Preserves.
Context {F : Type} (f : ACDashboard → F).

Lemma preserves_ret {A} (a : A) : preserves f (ret a).
Proof. by intros s. Qed.

Lemma preserves_raise {A} e : preserves f (@raise A e).
Proof. by intros s. Qed.

Lemma preserves_read {A} (g : ACDashboard → A) : preserves f (read g).
Proof. by intros s. Qed.

Lemma preserves_assign g : (∀ s, f (g s) = f s) → preserves f (assign g).
Proof. intros H s. apply H. Qed.

Lemma preserves_try r : preserves f (try_ r).
Proof. destruct r; by intros s. Qed.

Lemma preserves_eval {A} (r : exn + A) : preserves f (eval r).
Proof. destruct r; by intros s. Qed.

Lemma preserves_bind {A B} (c : stmt A) (k : A → stmt B) :
  preserves f c → (∀ a, preserves f (k a)) → preserves f (bind c k).
Proof.
  intros Hc Hk s. unfold bind. specialize (Hc s).
  destruct (c s) as [[a|e] s1]; simpl in *; [|done].
  by rewrite Hk.
Qed.

Lemma preserves_if {A} (b : bool) (c1 c2 : stmt A) :
  preserves f c1 → preserves f c2 → preserves f (if b then c1 else c2).
Proof. by destruct b. Qed.

End Preserves.

Lemma queue_blind_ret {A} (a : A) : queue_blind (ret a).
Proof. by intros q s. Qed.

Lemma queue_blind_raise {A} e : queue_blind (@raise A e).
Proof. by intros q s. Qed.

Lemma queue_blind_try r : queue_blind (try_ r).
Proof. destruct r; by intros q s. Qed.

Lemma queue_blind_eval {A} (r : exn + A) : queue_blind (eval r).
Proof. destruct r; by intros q s. Qed.

Lemma queue_blind_bind {A B} (c : stmt A) (k : A → stmt B) :
  queue_blind c → (∀ a, queue_blind (k a)) → queue_blind (bind c k).
Proof.
  intros Hc Hk q s. unfold bind. rewrite Hc.
  destruct (c s) as [[a|e] s1]; simpl; [|done].
  apply Hk.
Qed.

Lemma queue_blind_if {A} (b : bool) (c1 c2 : stmt A) :
  queue_blind c1 → queue_blind c2 → queue_blind (if b then c1 else c2).
Proof. by destruct b. Qed.

Lemma queue_blind_assign g :
  (∀ q s, g (set_mqtt_queue q s) = set_mqtt_queue q (g s)) → queue_blind (assign g).
Proof. intros H q s. unfold assign. simpl. by rewrite H. Qed.

Lemma queue_blind_read {A} (g : ACDashboard → A) :
  (∀ q s, g (set_mqtt_queue q s) = g s) → queue_blind (read g).
Proof. intros H q s. unfold read. simpl. by rewrite H. Qed.

Lemma queue_blind_now w : queue_blind (datetime_now w).
Proof. by intros q s. Qed.

Lemma queue_blind_db_insert w ts t h r : queue_blind (db_insert w ts t h r).
Proof.
  intros q s. unfold db_insert. simpl.
  by destruct (DataManager_insert _ _ _ _ _ _ _) as [[e|] m].
Qed.

Ltac queue_blind :=
  repeat first
    [ apply queue_blind_bind; [|intros ?]
    | apply queue_blind_if
    | apply queue_blind_ret
    | apply queue_blind_try
    | apply queue_blind_eval
    | apply queue_blind_now
    | apply queue_blind_db_insert
    | apply queue_blind_assign; reflexivity
    | apply queue_blind_read; reflexivity ].

Lemma queue_blind_handle_message w msg : queue_blind (handle_message w msg).
Proof.
  destruct msg; try apply queue_blind_ret.
  unfold handle_message, sensor_reading, show_reading, record_history, warnings,
    auto_relay, save_db, button_press, show_relay, log.
  queue_blind.
Qed.

Lemma preserves_queue_handle_message w msg : preserves mqtt_queue (handle_message w msg).
Proof.
  intros s. pose proof (queue_blind_handle_message w msg (mqtt_queue s) s) as H.
  assert (set_mqtt_queue (mqtt_queue s) s = s) as E by by destruct s.
  rewrite E in H. by rewrite H.
Qed.

(** ** The ingestion queue *)

Lemma set_mqtt_queue_same s : set_mqtt_queue (mqtt_queue s) s = s.
Proof. by destruct s. Qed.

Lemma enqueue_all_queue msgs s :
  enqueue_all msgs s = set_mqtt_queue (mqtt_queue s ++ msgs) s.
Proof.
  unfold enqueue_all. revert s. induction msgs as [|m msgs IH]; intros s; simpl.
  - rewrite app_nil_r. symmetry. apply set_mqtt_queue_same.
  - rewrite IH. unfold put. simpl. by rewrite <- app_assoc.
Qed.

(** The loop takes the messages from the front of the queue one at a time
    and runs the body on each with the rest still queued. *)
Lemma drain_handle_each w msgs s :
  drain w (length msgs) (set_mqtt_queue msgs s) =
  let '(o, s', pending) := handle_each w msgs s in (o, set_mqtt_queue pending s').
Proof.
  revert s. induction msgs as [|m rest IH]; intros s; [done|].
  simpl. unfold bind, get_nowait. simpl.
  change (set_mqtt_queue rest (set_mqtt_queue (m :: rest) s)) with (set_mqtt_queue rest s).
  rewrite queue_blind_handle_message.
  destruct (handle_message w m s) as [[[]|e] s1]; simpl; [|done].
  apply IH.
Qed.

Lemma handle_each_returned w msgs s s' pending :
  handle_each w msgs s = (Returned tt, s', pending) → pending = [].
Proof.
  revert s. induction msgs as [|m rest IH]; intros s; simpl.
  - by intros [= _ <-].
  - destruct (handle_message w m s) as [[[]|e] s1]; [apply IH|done].
Qed.

Lemma process_mqtt_queue_enqueued w s msgs :
  mqtt_queue s = [] →
  process_mqtt_queue w (enqueue_all msgs s) =
  (let '(o, s', pending) := handle_each w msgs s in (o, set_mqtt_queue pending s')).
Proof.
  intros Hq. unfold process_mqtt_queue. rewrite enqueue_all_queue, Hq. simpl.
  apply drain_handle_each.
Qed.

(** X18. Whatever messages were put into an empty queue, one run of
    [process_mqtt_queue] takes them from the queue in exactly the order they
    were put and runs the loop body on each once, up to the first whose
    body raises: what was not reached stays queued in order. A run that
    returns has handled all of them and leaves the queue empty. On an empty
    queue the run returns at once and changes nothing. *)
Theorem process_mqtt_queue_fifo (w : world) (s : ACDashboard) (msgs : list pyval) :
  mqtt_queue s = [] →
  process_mqtt_queue w (enqueue_all msgs s) =
    (let '(o, s', pending) := handle_each w msgs s in (o, set_mqtt_queue pending s'))
  ∧ (∀ s', (process_mqtt_queue w (enqueue_all msgs s)).1 = Returned tt →
           (process_mqtt_queue w (enqueue_all msgs s)).2 = s' →
           mqtt_queue s' = [] ∧ (handle_each w msgs s).1.1 = Returned tt)
  ∧ mqtt_queue (enqueue_all msgs s) = msgs
  ∧ process_mqtt_queue w s = (Returned tt, s).
Proof.
  intros Hq.
  assert (process_mqtt_queue w (enqueue_all msgs s) =
    (let '(o, s', pending) := handle_each w msgs s in (o, set_mqtt_queue pending s'))) as E.
  { by apply process_mqtt_queue_enqueued. }
  split; [exact E|]. split; [|split].
  - intros s' Ho <-. rewrite E in *.
    destruct (handle_each w msgs s) as [[o s1] pending] eqn:Eh. simpl in *. subst o.
    by rewrite (handle_each_returned _ _ _ _ _ Eh).
  - by rewrite enqueue_all_queue, Hq.
  - unfold process_mqtt_queue. rewrite Hq. simpl. unfold empty. by rewrite Hq.
Qed.

Lemma process_mqtt_queue_fifo_witness :
  mqtt_queue fresh = []
  ∧ process_mqtt_queue calm
      (enqueue_all [button_data; sensor_data (real 31) (real 50)] fresh)
    = (let '(o, s', pending) :=
         handle_each calm [button_data; sensor_data (real 31) (real 50)] fresh
       in (o, set_mqtt_queue pending s')).
Proof.
  split; [done|].
  exact (proj1 (process_mqtt_queue_fifo calm fresh
                  [button_data; sensor_data (real 31) (real 50)] eq_refl)).
Defined.

(** C4, on the code: a reading whose insert fails, queued ahead of a button
    press. Both messages are in the queue, in this order, when the run
    starts; the run raises on the first and ends, so this drain does not
    return the button press: it is still queued and the relay was not
    toggled. Only a second run takes it from the queue and handles it. *)
Theorem drain_cut_short :
  let s0 := enqueue_all [sensor_data (real 31) (real 50); button_data] fresh in
  let r := process_mqtt_queue faulty s0 in
  let r2 := process_mqtt_queue faulty r.2 in
  mqtt_queue s0 = [sensor_data (real 31) (real 50); button_data]
  ∧ r.1 = Raised sqlite3_Error
  ∧ mqtt_queue r.2 = [button_data]
  ∧ relay_on r.2 = PBool true
  ∧ list_logs r.2 = [(noon, HighTemperature (real 31))]
  ∧ r2.1 = Returned tt
  ∧ mqtt_queue r2.2 = []
  ∧ relay_on r2.2 = PBool false.
Proof. vm_compute. repeat split. Qed.

(** ** The history deques *)

Lemma deque_append_maxlen {A} (x : A) d : maxlen (deque_append x d) = maxlen d.
Proof. done. Qed.

Lemma deque_append_length {A} (x : A) d :
  (length (items d) ≤ maxlen d)%nat →
  (length (items (deque_append x d)) ≤ maxlen d)%nat
  ∧ length (items (deque_append x d)) = ((length (items d) + 1) `min` maxlen d)%nat.
Proof.
  intros H. unfold deque_append. simpl.
  destruct (Nat.ltb_spec (maxlen d) (length (items d ++ [x]))) as [Hlt|Hge];
    rewrite ?length_drop, length_app in *; simpl in *; lia.
Qed.

(** After the pushes [xs] into an empty deque of capacity [n], the deque
    holds the last [n] of them. *)
Lemma deque_pushes {A} (n : nat) (xs : list A) :
  items (foldl (λ d x, deque_append x d) (deque_new n) xs) = drop (length xs - n)%nat xs
  ∧ maxlen (foldl (λ d x, deque_append x d) (deque_new n) xs) = n.
Proof.
  induction xs as [|x xs IH] using rev_ind; [done|].
  rewrite foldl_app. simpl. destruct IH as [IH1 IH2].
  remember (foldl (λ d x, deque_append x d) (deque_new n) xs) as d eqn:Ed. clear Ed.
  unfold deque_append. simpl. rewrite IH1, IH2. split; [|done].
  rewrite !length_app, length_drop. simpl.
  destruct (Nat.ltb_spec n (length xs - (length xs - n) + 1)%nat) as [Hlt|Hge].
  - rewrite !drop_app, drop_drop, length_drop. f_equal; f_equal; lia.
  - replace (length xs + 1 - n)%nat with 0%nat by lia.
    by replace (length xs - n)%nat with 0%nat by lia.
Qed.

(** ** The loop body, case by case *)

Lemma bind_ret_tt (c : stmt unit) s : bind c (λ _, ret tt) s = c s.
Proof. unfold bind, ret. by destruct (c s) as [[[]|e] s']. Qed.

Lemma eq_str_spec v s : Py.eq_str v s = true ↔ v = PStr s.
Proof.
  destruct v; simpl; try (split; [done | congruence]).
  rewrite bool_decide_eq_true. split; congruence.
Qed.

Lemma handle_message_sensor w d s :
  d !! "type"%string = Some (PStr "sensor") →
  handle_message w (PDict d) s = sensor_reading w d s.
Proof.
  intros Ht. unfold handle_message, Py.get. rewrite Ht. simpl.
  apply bind_ret_tt.
Qed.

Lemma handle_message_button w d s :
  d !! "type"%string = Some (PStr "button_pressed") →
  handle_message w (PDict d) s = button_press w s.
Proof. intros Ht. unfold handle_message, Py.get. by rewrite Ht. Qed.

Lemma handle_message_unrecognised w msg s :
  unrecognised msg → handle_message w msg s = (Returned tt, s).
Proof.
  intros H. destruct msg as [| | | | | |d]; try done.
  destruct (H d eq_refl) as [H1 H2]. unfold handle_message.
  destruct (Py.eq_str _ "sensor") eqn:E1; [by apply eq_str_spec in E1|].
  destruct (Py.eq_str _ "button_pressed") eqn:E2; [by apply eq_str_spec in E2|].
  done.
Qed.

Lemma format_1f_not_None v : Py.format_1f v = None → Py.is_not_None v = true.
Proof. by destruct v. Qed.

Lemma format_1f_ge_const v :
  Py.format_1f v = None → Py.ge_const v TEMP_THRESHOLD = inr (ge_threshold v).
Proof. unfold ge_threshold. by destruct v. Qed.

Lemma sensor_reading_numbers w d t h s :
  d !! "temperature"%string = Some t → d !! "humidity"%string = Some h →
  Py.format_1f t = None → Py.format_1f h = None →
  sensor_reading w d s = save_db w t h (applied w d t h s).
Proof.
  intros Ht Hh Ft Fh. unfold sensor_reading.
  replace (Py.get d "temperature" PNone) with t by (unfold Py.get; by rewrite Ht).
  replace (Py.get d "humidity" PNone) with h by (unfold Py.get; by rewrite Hh).
  rewrite (format_1f_not_None _ Ft), (format_1f_not_None _ Fh). simpl.
  unfold show_reading, record_history, warnings, auto_relay, show_relay, log.
  rewrite Ft, Fh, (format_1f_ge_const _ Ft).
  unfold applied, relayed, warned, recorded, shown.
  unfold bind at 1. simpl.
  destruct (ge_threshold t); reflexivity.
Qed.

Lemma save_db_cases w t h s :
  save_db w t h s =
  let s1 := set_clock_reads (S (clock_reads s)) s in
  match Py.int_ (int_of_str w) (relay_on s) with
  | inl e => (Raised e, s1)
  | inr r => db_insert w (strftime "%Y-%m-%d %H:%M:%S" (now w (clock_reads s))) t h r s1
  end.
Proof.
  unfold save_db, bind, datetime_now, read, eval. simpl.
  by destruct (Py.int_ _ _).
Qed.

Lemma preserves_db_insert {F} (f : ACDashboard → F) w ts t h r :
  (∀ x s, f (set_db x s) = f s) → (∀ x s, f (set_insert_calls x s) = f s) →
  preserves f (db_insert w ts t h r).
Proof.
  intros H1 H2 s. unfold db_insert.
  destruct (DataManager_insert _ _ _ _ _ _ _) as [[e|] m]; simpl; by rewrite ?H1, ?H2.
Qed.

Lemma preserves_now {F} (f : ACDashboard → F) w :
  (∀ x s, f (set_clock_reads x s) = f s) → preserves f (datetime_now w).
Proof. intros H s. apply H. Qed.

(** [# Save DB] touches the table and the two counters only. *)
Lemma preserves_save_db {F} (f : ACDashboard → F) w t h :
  (∀ x s, f (set_db x s) = f s) → (∀ x s, f (set_insert_calls x s) = f s) →
  (∀ x s, f (set_clock_reads x s) = f s) →
  preserves f (save_db w t h).
Proof.
  intros H1 H2 H3. unfold save_db.
  apply preserves_bind; [by apply preserves_now|intros ts].
  apply preserves_bind; [apply preserves_read|intros relay].
  apply preserves_bind; [apply preserves_eval|intros status].
  by apply preserves_db_insert.
Qed.

Lemma save_db_frame w t h s :
  let s' := (save_db w t h s).2 in
  relay_on s' = relay_on s ∧ relay_indicator s' = relay_indicator s
  ∧ temp s' = temp s ∧ hum s' = hum s
  ∧ times s' = times s ∧ temps s' = temps s ∧ hums s' = hums s
  ∧ list_logs s' = list_logs s ∧ max_points s' = max_points s
  ∧ lbl_temp s' = lbl_temp s ∧ lbl_hum s' = lbl_hum s.
Proof. repeat split; by apply preserves_save_db. Qed.

Lemma truth_or_ b v : Py.truth (Py.or_ (PBool b) v) = b || Py.truth v.
Proof. by destruct b. Qed.

(** ** The relay *)

Lemma relay_after_reading w d t h s :
  d !! "type"%string = Some (PStr "sensor") →
  d !! "temperature"%string = Some t → d !! "humidity"%string = Some h →
  Py.format_1f t = None → Py.format_1f h = None →
  relay_on (handle_message w (PDict d) s).2
  = Py.or_ (PBool (ge_threshold t)) (Py.get d "manual_override" (PBool false)).
Proof.
  intros Hty Ht Hh Ft Fh.
  rewrite (handle_message_sensor _ _ _ Hty), (sensor_reading_numbers _ _ _ _ _ Ht Hh Ft Fh).
  by rewrite (preserves_save_db relay_on).
Qed.

Lemma relay_after_sensor_data w t h s :
  Py.format_1f t = None → Py.format_1f h = None →
  relay_on (handle_message w (sensor_data t h) s).2 = PBool (ge_threshold t).
Proof.
  intros Ft Fh. unfold sensor_data.
  rewrite (relay_after_reading w _ t h) by done.
  by destruct (ge_threshold t).
Qed.

Lemma ge_threshold_real q : ge_threshold (real q) = true ↔ (TEMP_THRESHOLD <= q)%Q.
Proof. unfold ge_threshold. simpl. apply Qle_bool_iff. Qed.

(** C1. A sensor reading whose temperature [t] and humidity are numbers
    leaves the relay ON exactly when [t >= TEMP_THRESHOLD] or the reading's
    manual override is true; the relay it leaves is a function of the
    message alone, the same from every earlier state and in every
    environment. With no override, the readings 28.0, 31.0, 29.0 leave the
    relay OFF, ON, OFF from any initial state. *)
Theorem sensor_reading_relay_memoryless (w : world) (s : ACDashboard)
    (d : gmap string pyval) (t h : pyval) :
  d !! "type"%string = Some (PStr "sensor") →
  d !! "temperature"%string = Some t → d !! "humidity"%string = Some h →
  Py.format_1f t = None → Py.format_1f h = None →
  let override := Py.get d "manual_override" (PBool false) in
  let s' := (handle_message w (PDict d) s).2 in
  (Py.truth (relay_on s') = true ↔ ge_threshold t = true ∨ Py.truth override = true)
  ∧ (∀ q, t = real q → (ge_threshold t = true ↔ (30 <= q)%Q))
  ∧ (∀ w0 s0, relay_on (handle_message w0 (PDict d) s0).2 = relay_on s')
  ∧ (let s1 := (handle_message w (sensor_data (real 28) h) s).2 in
     let s2 := (handle_message w (sensor_data (real 31) h) s1).2 in
     let s3 := (handle_message w (sensor_data (real 29) h) s2).2 in
     relay_on s1 = PBool false ∧ relay_on s2 = PBool true ∧ relay_on s3 = PBool false).
Proof.
  intros Hty Ht Hh Ft Fh override s'. subst s'.
  rewrite (relay_after_reading _ _ _ _ _ Hty Ht Hh Ft Fh).
  split; [|split; [|split]].
  - rewrite truth_or_, orb_true_iff. done.
  - intros q ->. apply ge_threshold_real.
  - intros w0 s0. apply (relay_after_reading _ _ _ _ _ Hty Ht Hh Ft Fh).
  - cbv zeta. by rewrite !relay_after_sensor_data.
Qed.

Lemma sensor_reading_relay_memoryless_witness :
  (sensor_fields (real 31) (real 50) !! "type"%string = Some (PStr "sensor")
   ∧ sensor_fields (real 31) (real 50) !! "temperature"%string = Some (real 31)
   ∧ sensor_fields (real 31) (real 50) !! "humidity"%string = Some (real 50)
   ∧ Py.format_1f (real 31) = None ∧ Py.format_1f (real 50) = None)
  ∧ (Py.truth (relay_on (handle_message calm (sensor_data (real 31) (real 50)) fresh).2) = true
     ↔ ge_threshold (real 31) = true
       ∨ Py.truth (Py.get (sensor_fields (real 31) (real 50)) "manual_override" (PBool false))
         = true).
Proof.
  split; [by repeat split|].
  exact (proj1 (sensor_reading_relay_memoryless calm fresh
                  (sensor_fields (real 31) (real 50)) (real 31) (real 50)
                  eq_refl eq_refl eq_refl eq_refl eq_refl)).
Defined.

(** C2. A [button_pressed] message replaces the relay state by its negation,
    whatever the state, the current temperature and the other fields of the
    message are; the indicator follows and one line is logged; the current
    temperature and humidity, the history, the table and the queue stay as
    they were, and nothing is raised. *)
Theorem button_pressed_toggles_relay (w : world) (s : ACDashboard) (d : gmap string pyval) :
  d !! "type"%string = Some (PStr "button_pressed") →
  let r := handle_message w (PDict d) s in
  r.1 = Returned tt
  ∧ relay_on r.2 = PBool (negb (Py.truth (relay_on s)))
  ∧ relay_indicator r.2 = (if Py.truth (relay_on s) then gray else green)
  ∧ list_logs r.2 = list_logs s ++
      [(now w (clock_reads s), ButtonPressReceived (negb (Py.truth (relay_on s))))]
  ∧ temp r.2 = temp s ∧ hum r.2 = hum s
  ∧ lbl_temp r.2 = lbl_temp s ∧ lbl_hum r.2 = lbl_hum s
  ∧ times r.2 = times s ∧ temps r.2 = temps s ∧ hums r.2 = hums s
  ∧ max_points r.2 = max_points s
  ∧ db r.2 = db s ∧ insert_calls r.2 = insert_calls s
  ∧ mqtt_queue r.2 = mqtt_queue s.
Proof.
  intros Hty r. subst r. rewrite (handle_message_button _ _ _ Hty).
  unfold button_press, show_relay, log, bind, assign, read, datetime_now. simpl.
  repeat split. by destruct (Py.truth (relay_on s)).
Qed.

Lemma button_pressed_toggles_relay_witness :
  ({[ "type"%string := PStr "button_pressed" ]} : gmap string pyval) !! "type"%string
    = Some (PStr "button_pressed")
  ∧ relay_on (handle_message calm button_data fresh).2 = PBool true.
Proof.
  split; [done|].
  exact (proj1 (proj2 (button_pressed_toggles_relay calm fresh
                         {[ "type"%string := PStr "button_pressed" ]} eq_refl))).
Defined.

(** C3, as the code has it: the override is a field of the sensor reading
    and is not kept. A reading that carries [manual_override = true] leaves
    the relay ON whatever its temperature; a message the loop body does not
    recognise (for instance one that only carries an override) changes
    nothing; a reading without the field leaves the relay ON exactly when
    its temperature reaches the threshold, whatever was processed before, so
    a reading of 10.0 leaves it OFF. *)
Theorem manual_override_is_per_reading (w : world) (s : ACDashboard)
    (d : gmap string pyval) (t h : pyval) :
  d !! "type"%string = Some (PStr "sensor") →
  d !! "temperature"%string = Some t → d !! "humidity"%string = Some h →
  Py.format_1f t = None → Py.format_1f h = None →
  let s' := (handle_message w (PDict d) s).2 in
  (d !! "manual_override"%string = Some (PBool true) → relay_on s' = PBool true)
  ∧ (d !! "manual_override"%string = None → relay_on s' = PBool (ge_threshold t))
  ∧ (∀ m, unrecognised m → handle_message w m s = (Returned tt, s))
  ∧ (∀ w0 s0, relay_on (handle_message w0 (sensor_data (real 10) h) s0).2 = PBool false).
Proof.
  intros Hty Ht Hh Ft Fh s'. subst s'.
  rewrite (relay_after_reading _ _ _ _ _ Hty Ht Hh Ft Fh).
  split; [|split; [|split]].
  - intros Ho. unfold Py.get. rewrite Ho. by destruct (ge_threshold t).
  - intros Ho. unfold Py.get. rewrite Ho. by destruct (ge_threshold t).
  - intros m Hm. by apply handle_message_unrecognised.
  - intros w0 s0. by rewrite relay_after_sensor_data.
Qed.

Lemma manual_override_is_per_reading_witness :
  let d := <[ "manual_override"%string := PBool true ]> (sensor_fields (real 10) (real 50)) in
  (d !! "type"%string = Some (PStr "sensor")
   ∧ d !! "temperature"%string = Some (real 10)
   ∧ d !! "humidity"%string = Some (real 50)
   ∧ Py.format_1f (real 10) = None ∧ Py.format_1f (real 50) = None)
  ∧ relay_on (handle_message calm (PDict d) fresh).2 = PBool true.
Proof.
  intros d. split; [by repeat split|].
  exact (proj1 (manual_override_is_per_reading calm fresh d (real 10) (real 50)
                  eq_refl eq_refl eq_refl eq_refl eq_refl) eq_refl).
Defined.

(** C3 as stated fails: after a reading that carried [manual_override = true]
    (the relay is ON), a reading of 10.0 leaves the relay OFF. *)
Lemma manual_override_not_sticky :
  let s1 := (handle_message calm
               (PDict (<[ "manual_override"%string := PBool true ]>
                         (sensor_fields (real 10) (real 50)))) fresh).2 in
  let s2 := (handle_message calm (sensor_data (real 10) (real 50)) s1).2 in
  relay_on s1 = PBool true ∧ relay_on s2 = PBool false.
Proof. vm_compute. done. Qed.

(** ** The loop body in full *)

Lemma show_reading_cases t h s :
  show_reading t h s =
  match Py.format_1f t with
  | Some e => (Raised e, set_hum h (set_temp t s))
  | None =>
    match Py.format_1f h with
    | Some e => (Raised e, set_lbl_temp t (set_hum h (set_temp t s)))
    | None => (Returned tt, shown t h s)
    end
  end.
Proof.
  unfold show_reading, bind, assign, shown. simpl.
  destruct (Py.format_1f t); [done|]. simpl.
  by destruct (Py.format_1f h).
Qed.

Lemma sensor_reading_cases w d s :
  sensor_reading w d s =
  let t := Py.get d "temperature" PNone in
  let h := Py.get d "humidity" PNone in
  if Py.is_not_None t && Py.is_not_None h then
    match Py.format_1f t with
    | Some e => (Raised e, set_hum h (set_temp t s))
    | None =>
      match Py.format_1f h with
      | Some e => (Raised e, set_lbl_temp t (set_hum h (set_temp t s)))
      | None => save_db w t h (applied w d t h s)
      end
    end
  else (Returned tt, s).
Proof.
  unfold sensor_reading. cbv zeta.
  destruct (Py.is_not_None _ && Py.is_not_None _); [|done].
  unfold bind at 1. rewrite show_reading_cases.
  destruct (Py.format_1f (Py.get d "temperature" PNone)) eqn:Ft; [done|].
  destruct (Py.format_1f (Py.get d "humidity" PNone)) eqn:Fh; [done|].
  unfold record_history, warnings, auto_relay, show_relay, log.
  rewrite Ft, (format_1f_ge_const _ Ft).
  unfold applied, relayed, warned, recorded.
  unfold bind at 1. simpl.
  destruct (ge_threshold _); reflexivity.
Qed.

Lemma handle_message_cases w d s :
  handle_message w (PDict d) s =
  if Py.eq_str (Py.get d "type" PNone) "sensor" then sensor_reading w d s
  else if Py.eq_str (Py.get d "type" PNone) "button_pressed" then button_press w s
  else (Returned tt, s).
Proof.
  unfold handle_message.
  destruct (Py.eq_str _ "sensor") eqn:E1.
  - apply eq_str_spec in E1. rewrite E1. simpl. apply bind_ret_tt.
  - by destruct (Py.eq_str _ "button_pressed").
Qed.

Lemma button_press_cases w s :
  button_press w s =
  (Returned tt,
   set_list_logs
     (list_logs s ++ [(now w (clock_reads s), ButtonPressReceived (negb (Py.truth (relay_on s))))])
     (set_clock_reads (S (clock_reads s))
        (set_relay_indicator (if Py.truth (relay_on s) then gray else green)
           (set_relay_on (PBool (negb (Py.truth (relay_on s)))) s)))).
Proof.
  unfold button_press, show_relay, log, bind, assign, read, datetime_now, Py.not_. simpl.
  by destruct (Py.truth (relay_on s)).
Qed.

Lemma get_not_None d k v : Py.get d k PNone = v → Py.is_not_None v = true → d !! k = Some v.
Proof.
  unfold Py.get. destruct (d !! k) as [x|]; simpl; intros <-; [done|discriminate].
Qed.

Lemma handle_message_history w m s :
  history_step s (handle_message w m s).2 m
  ∧ max_points (handle_message w m s).2 = max_points s.
Proof.
  destruct m as [| | | | | |d]; try (split; [by left|done]).
  rewrite handle_message_cases.
  destruct (Py.eq_str _ "sensor") eqn:E1.
  - apply eq_str_spec in E1. rewrite sensor_reading_cases. cbv zeta.
    destruct (Py.is_not_None (Py.get d "temperature" PNone)) eqn:Nt; [|split; [by left|done]].
    destruct (Py.is_not_None (Py.get d "humidity" PNone)) eqn:Nh; [|split; [by left|done]].
    simpl.
    destruct (Py.format_1f (Py.get d "temperature" PNone)) eqn:Ft; [split; [by left|done]|].
    destruct (Py.format_1f (Py.get d "humidity" PNone)) eqn:Fh; [split; [by left|done]|].
    destruct (save_db_frame w (Py.get d "temperature" PNone) (Py.get d "humidity" PNone)
                (applied w d (Py.get d "temperature" PNone) (Py.get d "humidity" PNone) s))
      as (_ & _ & _ & _ & H1 & H2 & H3 & _ & H4 & _).
    split.
    + right. eexists d, _, _, _. rewrite H1, H2, H3.
      split; [done|]. split.
      { unfold Py.get in E1. by destruct (d !! "type"%string) as [?|]; simplify_eq/=. }
      split; [by apply get_not_None|]. split; [by apply get_not_None|].
      split; [done|]. split; [done|].
      unfold applied, relayed, warned. destruct (ge_threshold _); simpl; done.
    + rewrite H4. unfold applied, relayed, warned. by destruct (ge_threshold _).
  - destruct (Py.eq_str _ "button_pressed"); [|split; [by left|done]].
    rewrite button_press_cases. split; [by left|done].
Qed.

Lemma history_inv_init store pending : history_inv (ACDashboard_init store pending).
Proof. repeat split; simpl; lia. Qed.

Lemma history_inv_handle_message w m s :
  history_inv s → history_inv (handle_message w m s).2.
Proof.
  intros (Hm & H1 & H2 & H3 & Hl & E2 & E3). unfold history_inv.
  destruct (handle_message_history w m s) as [[(-> & -> & ->)|Happ] ->].
  { done. }
  destruct Happ as (d & ts & t & h & _ & _ & _ & _ & _ & _ & -> & -> & ->).
  rewrite !deque_append_maxlen.
  destruct (deque_append_length ts (times s)) as [Ha Hb]; [lia|].
  destruct (deque_append_length t (temps s)) as [_ Hc]; [lia|].
  destruct (deque_append_length h (hums s)) as [_ Hd]; [lia|].
  repeat split; try done; lia.
Qed.

Lemma history_inv_after_messages w msgs s :
  history_inv s → history_inv (after_messages w msgs s).
Proof.
  unfold after_messages. revert s.
  induction msgs as [|m msgs IH]; intros s Hs; [done|].
  simpl. apply IH. by apply history_inv_handle_message.
Qed.

Lemma reading_recorded w d t h s :
  d !! "type"%string = Some (PStr "sensor") →
  d !! "temperature"%string = Some t → d !! "humidity"%string = Some h →
  Py.format_1f t = None → Py.format_1f h = None →
  let s' := (handle_message w (PDict d) s).2 in
  times s' = deque_append (strftime "%H:%M:%S" (now w (clock_reads s))) (times s)
  ∧ temps s' = deque_append t (temps s)
  ∧ hums s' = deque_append h (hums s)
  ∧ temp s' = t ∧ hum s' = h.
Proof.
  intros Hty Ht Hh Ft Fh.
  rewrite (handle_message_sensor _ _ _ Hty), (sensor_reading_numbers _ _ _ _ _ Ht Hh Ft Fh).
  cbv zeta.
  destruct (save_db_frame w t h (applied w d t h s))
    as (_ & _ & -> & -> & -> & -> & -> & _).
  unfold applied, relayed, warned. by destruct (ge_threshold t).
Qed.

(** C5. A deque never holds more than its capacity and holds the most
    recent pushes in insertion order: after the pushes [xs] into an empty
    deque of capacity [n] it holds the last [n] of them; after the
    [N + 1] pushes [x :: xs] into a deque of capacity [N = length xs] the
    first one, [x], is gone and [xs] is left; with capacity 2, pushing
    [a], [b], [c] leaves [b; c]. The three history deques of the dashboard
    have capacity [max_points = 200] and never hold more, whatever messages
    were processed. *)
Theorem history_buffer_bounded {A : Type} (n : nat) (x : A) (xs : list A) :
  let push := λ (d : deque A) (y : A), deque_append y d in
  (length (items (foldl push (deque_new n) xs)) ≤ n)%nat
  ∧ items (foldl push (deque_new n) xs) = drop (length xs - n)%nat xs
  ∧ items (foldl push (deque_new (length xs)) (x :: xs)) = xs
  ∧ (∀ a b c : A, items (foldl push (deque_new 2) [a; b; c]) = [b; c])
  ∧ (∀ w store pending msgs,
       let s := after_messages w msgs (ACDashboard_init store pending) in
       max_points s = 200%nat
       ∧ maxlen (times s) = 200%nat ∧ maxlen (temps s) = 200%nat ∧ maxlen (hums s) = 200%nat
       ∧ (length (items (times s)) ≤ 200)%nat
       ∧ (length (items (temps s)) ≤ 200)%nat
       ∧ (length (items (hums s)) ≤ 200)%nat).
Proof.
  intros push. subst push.
  split; [|split; [|split; [|split]]].
  - destruct (deque_pushes n xs) as [-> _]. rewrite length_drop. lia.
  - apply deque_pushes.
  - destruct (deque_pushes (length xs) (x :: xs)) as [-> _]. simpl.
    by replace (S (length xs) - length xs)%nat with 1%nat by lia.
  - done.
  - intros w store pending msgs s.
    destruct (history_inv_after_messages w msgs _ (history_inv_init store pending))
      as (Hm & H1 & H2 & H3 & Hl & E2 & E3).
    fold s in Hm, H1, H2, H3, Hl, E2, E3.
    repeat split; lia.
Qed.

(** C10. After any sequence of processed messages the three history
    sequences have one length. One run of the loop body leaves all three
    as they were or appends one entry to each of the three (a sensor
    reading whose temperature and humidity are numbers does the latter);
    putting a message into the queue touches none of them. *)
Theorem history_sequences_same_length (w : world) (store : DataManager)
    (pending msgs : list pyval) :
  let s := after_messages w msgs (ACDashboard_init store pending) in
  length (items (times s)) = length (items (temps s))
  ∧ length (items (temps s)) = length (items (hums s))
  ∧ (∀ s0 m, history_step s0 (handle_message w m s0).2 m)
  ∧ (∀ s0 d t h,
       d !! "type"%string = Some (PStr "sensor") →
       d !! "temperature"%string = Some t → d !! "humidity"%string = Some h →
       Py.format_1f t = None → Py.format_1f h = None →
       let s' := (handle_message w (PDict d) s0).2 in
       times s' = deque_append (strftime "%H:%M:%S" (now w (clock_reads s0))) (times s0)
       ∧ temps s' = deque_append t (temps s0)
       ∧ hums s' = deque_append h (hums s0))
  ∧ (∀ s0 m, times (put m s0) = times s0 ∧ temps (put m s0) = temps s0
             ∧ hums (put m s0) = hums s0).
Proof.
  intros s.
  destruct (history_inv_after_messages w msgs _ (history_inv_init store pending))
    as (_ & _ & _ & _ & _ & E2 & E3).
  fold s in E2, E3.
  split; [lia|]. split; [lia|]. split; [|split].
  - intros s0 m. apply handle_message_history.
  - intros s0 d t h Hty Ht Hh Ft Fh s'.
    destruct (reading_recorded w d t h s0 Hty Ht Hh Ft Fh) as (? & ? & ? & _). done.
  - done.
Qed.

(** C9. A message of type [sensor] whose temperature or humidity is absent
    ([get] gives [None]) is dropped: the loop body returns and the
    dashboard is exactly as before, nothing displayed, recorded, logged or
    stored. *)
Theorem incomplete_reading_ignored (w : world) (s : ACDashboard) (d : gmap string pyval) :
  d !! "type"%string = Some (PStr "sensor") →
  Py.get d "temperature" PNone = PNone ∨ Py.get d "humidity" PNone = PNone →
  handle_message w (PDict d) s = (Returned tt, s).
Proof.
  intros Hty Habs. rewrite (handle_message_sensor _ _ _ Hty), sensor_reading_cases.
  cbv zeta. destruct Habs as [-> | ->]; [done|].
  by rewrite andb_false_r.
Qed.

Lemma incomplete_reading_ignored_witness :
  let d : gmap string pyval :=
    <[ "type"%string := PStr "sensor" ]> {[ "temperature"%string := real 31 ]} in
  (d !! "type"%string = Some (PStr "sensor")
   ∧ (Py.get d "temperature" PNone = PNone ∨ Py.get d "humidity" PNone = PNone))
  ∧ handle_message calm (PDict d) fresh = (Returned tt, fresh).
Proof.
  intros d. split; [split; [done|by right]|].
  exact (incomplete_reading_ignored calm fresh d eq_refl (or_intror eq_refl)).
Defined.

(** ** Persistence *)

Lemma sql_number_bind v : sql_number v = true → sql_bind v = None.
Proof. destruct v; simpl; try done. by intros ->. Qed.




(** What [db_insert] does to the table: nothing, or one row more with the
    next [id]. *)
Lemma db_insert_table w ts t h z s :
  db (db_insert w ts t h z s).2 = db s
  ∨ ∃ r, row_id r = S (last_id (db s))
         ∧ db (db_insert w ts t h z s).2
           = {| rows := rows (db s) ++ [r]; last_id := S (last_id (db s)) |}.
Proof.
  unfold db_insert, DataManager_insert.
  destruct (sql_bind t); [by left|].
  destruct (sql_bind h); [by left|].
  destruct (negb (int64 z)); [by left|].
  destruct (storage_fault _ _), (fault_at_commit _ _); simpl;
    first [by left | right; eexists; split; [|reflexivity]; reflexivity].
Qed.

Lemma handle_message_db w m s :
  db (handle_message w m s).2 = db s
  ∨ ∃ r, row_id r = S (last_id (db s))
         ∧ db (handle_message w m s).2
           = {| rows := rows (db s) ++ [r]; last_id := S (last_id (db s)) |}.
Proof.
  destruct m as [| | | | | |d]; try by left.
  rewrite handle_message_cases.
  destruct (Py.eq_str _ "sensor").
  - rewrite sensor_reading_cases. cbv zeta.
    destruct (_ && _); [|by left].
    destruct (Py.format_1f _); [by left|].
    destruct (Py.format_1f _); [by left|].
    rewrite save_db_cases. cbv zeta.
    set (t := Py.get d "temperature" PNone). set (h := Py.get d "humidity" PNone).
    assert (db (applied w d t h s) = db s) as Hdb.
    { unfold applied, relayed, warned. by destruct (ge_threshold t). }
    remember (applied w d t h s) as s1 eqn:Es1. clear Es1.
    destruct (Py.int_ _ _) as [e|z]; [left; simpl; by rewrite Hdb|].
    destruct (db_insert_table w (strftime "%Y-%m-%d %H:%M:%S" (now w (clock_reads s1)))
                t h z (set_clock_reads (S (clock_reads s1)) s1)) as [E|(r & Hr & E)];
      rewrite E; simpl in *; rewrite Hdb in *; [by left|right; by exists r].
  - destruct (Py.eq_str _ "button_pressed"); [|by left].
    rewrite button_press_cases. by left.
Qed.





(** ** Failures *)

(** C7, on the code: the storage engine fails on the insert of the reading
    31.0 / 50.0, queued ahead of a button press. The reading has reached
    the history and the relay and its high-temperature warning is logged,
    but [process_mqtt_queue] raises the storage error: no notice of the
    failure is logged, and the button press is left in the queue, not
    handled by this run. *)
Theorem storage_failure_aborts_drain :
  let r := process_mqtt_queue faulty
             (enqueue_all [sensor_data (real 31) (real 50); button_data] fresh) in
  r.1 = Raised sqlite3_Error
  ∧ items (temps r.2) = [real 31] ∧ items (hums r.2) = [real 50]
  ∧ items (times r.2) = [strftime "%H:%M:%S" noon]
  ∧ relay_on r.2 = PBool true
  ∧ list_logs r.2 = [(noon, HighTemperature (real 31))]
  ∧ rows (db r.2) = []
  ∧ mqtt_queue r.2 = [button_data].
Proof. vm_compute. repeat split. Qed.

(** C8 as stated fails twice. An undecodable payload is queued and then
    dropped: after the run the dashboard is exactly what it was before the
    payload arrived, so nothing was surfaced. A sensor message whose
    temperature is a text makes the run raise [ValueError]. *)
Lemma malformed_payload_not_surfaced :
  process_mqtt_queue calm (on_message (Undecodable "not json") fresh) = (Returned tt, fresh)
  ∧ (process_mqtt_queue calm
       (on_message (Decoded (sensor_data (PStr "hot") (real 50))) fresh)).1
    = Raised ValueError.
Proof. vm_compute. done. Qed.

Lemma unrecognised_raw payload : unrecognised (PDict {[ "raw"%string := PStr payload ]}).
Proof. intros d [= <-]. by vm_compute. Qed.

(** C8, as the code has it: an undecodable payload (queued as
    [{"raw": payload}]), a payload that decodes to something that is not a
    dict, and a dict whose type is neither [sensor] nor [button_pressed]
    are taken from the queue and dropped. The run returns, the dashboard
    is exactly what it was before the payload arrived: no relay, history
    or stored state changed, and nothing was logged or displayed. *)
Theorem unrecognised_payload_dropped (w : world) (s : ACDashboard) (msg : inbound) :
  mqtt_queue s = [] →
  (∀ data, msg = Decoded data → unrecognised data) →
  process_mqtt_queue w (on_message msg s) = (Returned tt, s)
  ∧ (∀ payload, process_mqtt_queue w (on_message (Undecodable payload) s) = (Returned tt, s)).
Proof.
  intros Hq Hu.
  assert (∀ data, unrecognised data →
            process_mqtt_queue w (put data s) = (Returned tt, s)) as Hdrop.
  { intros data Hd.
    change (put data s) with (enqueue_all [data] s).
    rewrite (process_mqtt_queue_enqueued _ _ _ Hq). simpl.
    rewrite (handle_message_unrecognised _ _ _ Hd).
    rewrite <- Hq. by rewrite set_mqtt_queue_same. }
  split.
  - destruct msg as [data|payload]; unfold on_message; apply Hdrop.
    + by apply Hu.
    + apply unrecognised_raw.
  - intros payload. unfold on_message. apply Hdrop, unrecognised_raw.
Qed.

Lemma unrecognised_payload_dropped_witness :
  (mqtt_queue fresh = []
   ∧ ∀ data, Decoded (PList [PInt 1; PInt 2]) = Decoded data → unrecognised data)
  ∧ process_mqtt_queue calm (on_message (Decoded (PList [PInt 1; PInt 2])) fresh)
    = (Returned tt, fresh).
Proof.
  assert (∀ data, Decoded (PList [PInt 1; PInt 2]) = Decoded data → unrecognised data) as Hu.
  { intros data [= <-] d. discriminate. }
  split; [by split|].
  exact (proj1 (unrecognised_payload_dropped calm fresh (Decoded (PList [PInt 1; PInt 2]))
                  eq_refl Hu)).
Defined.

(** * Further properties of the code *)

(** ** The relay indicator *)

Lemma indicator_inv_handle_message w m s :
  indicator_inv s → indicator_inv (handle_message w m s).2.
Proof.
  unfold indicator_inv. intros Hs.
  destruct m as [| | | | | |d]; try done.
  rewrite handle_message_cases.
  destruct (Py.eq_str _ "sensor").
  - rewrite sensor_reading_cases. cbv zeta.
    destruct (_ && _); [|done].
    destruct (Py.format_1f _); [done|].
    destruct (Py.format_1f _); [done|].
    rewrite (preserves_save_db relay_on), (preserves_save_db relay_indicator) by done.
    done.
  - destruct (Py.eq_str _ "button_pressed"); [|done].
    rewrite button_press_cases. simpl. by destruct (Py.truth (relay_on s)).
Qed.

(** X1. In every state the dashboard reaches from [__init__], whatever
    messages were processed and whether or not a run raised, the indicator
    is green exactly when [relay_on] is true. *)
Theorem indicator_shows_relay (w : world) (store : DataManager) (pending msgs : list pyval) :
  let s := after_messages w msgs (ACDashboard_init store pending) in
  relay_indicator s = green ↔ Py.truth (relay_on s) = true.
Proof.
  intros s.
  assert (indicator_inv s) as Hs.
  { subst s. unfold after_messages.
    assert (indicator_inv (ACDashboard_init store pending)) as H0 by done.
    revert H0. generalize (ACDashboard_init store pending).
    induction msgs as [|m msgs IH]; intros s0 H0; [done|].
    simpl. apply IH. by apply indicator_inv_handle_message. }
  unfold indicator_inv in Hs. rewrite Hs.
  by destruct (Py.truth (relay_on s)).
Qed.

(** ** What the history holds *)

Lemma Forall_deque_append {A} (P : A → Prop) x d :
  Forall P (items d) → P x → Forall P (items (deque_append x d)).
Proof.
  intros Hd Hx. unfold deque_append. simpl.
  assert (Forall P (items d ++ [x])) as H by (apply Forall_app; auto).
  destruct (_ <? _)%nat; [by apply Forall_drop|done].
Qed.

Lemma history_numbers_handle_message w m s :
  Forall is_number (items (temps s)) ∧ Forall is_number (items (hums s)) →
  Forall is_number (items (temps (handle_message w m s).2))
  ∧ Forall is_number (items (hums (handle_message w m s).2)).
Proof.
  intros [Ht Hh].
  destruct (handle_message_history w m s) as [[(_ & -> & ->)|Happ] _]; [done|].
  destruct Happ as (d & ts & t & h & _ & _ & _ & _ & Ft & Fh & _ & -> & ->).
  split; by apply Forall_deque_append.
Qed.

(** X2. The history only ever holds numbers: in every state reached from
    [__init__], each item of [temps] and of [hums] is a [bool], [int] or
    [float] that [.1f] formats, whatever payloads arrived (texts, lists and
    [null]s never get in). *)
Theorem history_holds_numbers (w : world) (store : DataManager) (pending msgs : list pyval) :
  let s := after_messages w msgs (ACDashboard_init store pending) in
  Forall is_number (items (temps s)) ∧ Forall is_number (items (hums s)).
Proof.
  intros s. subst s. unfold after_messages.
  assert (Forall is_number (items (temps (ACDashboard_init store pending)))
          ∧ Forall is_number (items (hums (ACDashboard_init store pending)))) as H0
    by (split; constructor).
  revert H0. generalize (ACDashboard_init store pending).
  induction msgs as [|m msgs IH]; intros s0 H0; [done|].
  simpl. apply IH. by apply history_numbers_handle_message.
Qed.

Lemma sensor_fields_lookup t h :
  sensor_fields t h !! "type"%string = Some (PStr "sensor")
  ∧ sensor_fields t h !! "temperature"%string = Some t
  ∧ sensor_fields t h !! "humidity"%string = Some h
  ∧ sensor_fields t h !! "manual_override"%string = None.
Proof. done. Qed.

Lemma after_messages_cons w m msgs s :
  after_messages w (m :: msgs) s = after_messages w msgs (handle_message w m s).2.
Proof. done. Qed.

Lemma history_after_readings w (rs : list (pyval * pyval)) s :
  Forall (λ r, is_number r.1 ∧ is_number r.2) rs →
  let s' := after_messages w ((λ r, sensor_data r.1 r.2) <$> rs) s in
  temps s' = foldl (λ d y, deque_append y d) (temps s) rs.*1
  ∧ hums s' = foldl (λ d y, deque_append y d) (hums s) rs.*2.
Proof.
  cbv zeta. revert s.
  induction rs as [|[t h] rs IH]; intros s Hrs; [done|].
  apply Forall_cons in Hrs as [[Ft Fh] Hrs]. simpl in Ft, Fh.
  rewrite !fmap_cons, after_messages_cons. cbn beta. cbn [fst snd].
  destruct (IH (handle_message w (sensor_data t h) s).2 Hrs) as (-> & ->).
  destruct (sensor_fields_lookup t h) as (Hty & Ht & Hh & _).
  destruct (reading_recorded w (sensor_fields t h) t h s Hty Ht Hh Ft Fh) as (_ & E2 & E3 & _).
  unfold sensor_data. cbn [foldl fst snd]. by rewrite E2, E3.
Qed.

(** X3. After the dashboard processed the numeric readings [rs] (one
    message per reading, in this order, whatever the storage engine did),
    [temps] and [hums] hold the temperatures and humidities of the last 200
    of them, oldest first, and [times] has as many entries. *)
Theorem history_keeps_last_200 (w : world) (store : DataManager) (pending : list pyval)
    (rs : list (pyval * pyval)) :
  Forall (λ r, is_number r.1 ∧ is_number r.2) rs →
  let s := after_messages w ((λ r, sensor_data r.1 r.2) <$> rs)
             (ACDashboard_init store pending) in
  items (temps s) = drop (length rs - 200)%nat rs.*1
  ∧ items (hums s) = drop (length rs - 200)%nat rs.*2
  ∧ length (items (times s)) = (length rs `min` 200)%nat.
Proof.
  intros Hrs s.
  destruct (history_after_readings w rs (ACDashboard_init store pending) Hrs) as [E1 E2].
  fold s in E1, E2.
  destruct (history_inv_after_messages w ((λ r, sensor_data r.1 r.2) <$> rs) _
              (history_inv_init store pending)) as (_ & _ & _ & _ & _ & L & _).
  fold s in L. rewrite <- L, E1, E2. simpl.
  destruct (deque_pushes 200 rs.*1) as [-> _].
  destruct (deque_pushes 200 rs.*2) as [-> _].
  rewrite !length_drop, !length_fmap. repeat split. lia.
Qed.

Lemma history_keeps_last_200_witness :
  Forall (λ r : pyval * pyval, is_number r.1 ∧ is_number r.2) [(real 28, real 50)]
  ∧ items (temps (after_messages calm [sensor_data (real 28) (real 50)] fresh)) = [real 28].
Proof.
  assert (Forall (λ r : pyval * pyval, is_number r.1 ∧ is_number r.2) [(real 28, real 50)])
    as H by (by repeat constructor).
  split; [exact H|].
  exact (proj1 (history_keeps_last_200 calm empty_store [] [(real 28, real 50)] H)).
Defined.

(** ** When the loop body raises *)



Lemma applied_frame w d t h s :
  db (applied w d t h s) = db s ∧ mqtt_queue (applied w d t h s) = mqtt_queue s
  ∧ insert_calls (applied w d t h s) = insert_calls s
  ∧ temp (applied w d t h s) = t ∧ hum (applied w d t h s) = h
  ∧ lbl_temp (applied w d t h s) = t ∧ lbl_hum (applied w d t h s) = h.
Proof. unfold applied, relayed, warned. by destruct (ge_threshold t). Qed.



(** ** The table *)

Lemma store_ok_append m r :
  store_ok m → row_id r = S (last_id m) →
  store_ok {| rows := rows m ++ [r]; last_id := S (last_id m) |}.
Proof.
  intros [Hs Hb] Hr. split; simpl.
  - intros i j ri rj Hij Hi Hj.
    apply lookup_app_Some in Hi as [Hi|[Hil Hi]];
      apply lookup_app_Some in Hj as [Hj|[Hjl Hj]].
    + by apply (Hs i j).
    + apply list_lookup_singleton_Some in Hj as [_ <-].
      specialize (Hb _ _ Hi). lia.
    + apply lookup_lt_Some in Hj. lia.
    + apply list_lookup_singleton_Some in Hi as [Hi0 _].
      apply list_lookup_singleton_Some in Hj as [Hj0 _]. lia.
  - intros i r0 Hi.
    apply lookup_app_Some in Hi as [Hi|[_ Hi]].
    + specialize (Hb _ _ Hi). lia.
    + apply list_lookup_singleton_Some in Hi as [_ <-]. lia.
Qed.

(** X5. The control loop only ever appends to the table: after any
    messages, the rows the table had at start-up are still there, unchanged
    and in place, followed by the new ones; the [id]s keep increasing
    strictly in insertion order (so they are unique and the newest row has
    the largest), given they did in the table found at start-up. *)
Theorem table_is_append_only (w : world) (store : DataManager) (pending msgs : list pyval) :
  store_ok store →
  let s := after_messages w msgs (ACDashboard_init store pending) in
  rows store `prefix_of` rows (db s)
  ∧ (last_id store ≤ last_id (db s))%nat
  ∧ store_ok (db s).
Proof.
  intros Hok s. subst s. unfold after_messages.
  assert (∀ s0, rows store `prefix_of` rows (db s0) → (last_id store ≤ last_id (db s0))%nat →
                store_ok (db s0) →
                let s := foldl (λ s m, (handle_message w m s).2) s0 msgs in
                rows store `prefix_of` rows (db s)
                ∧ (last_id store ≤ last_id (db s))%nat ∧ store_ok (db s)) as H.
  { induction msgs as [|m msgs IH]; intros s0 Hp Hl Hs; [done|].
    simpl. apply IH.
    - destruct (handle_message_db w m s0) as [->|(r & _ & ->)]; [done|].
      by apply prefix_app_r.
    - destruct (handle_message_db w m s0) as [->|(r & _ & ->)]; simpl; lia.
    - destruct (handle_message_db w m s0) as [->|(r & Hr & ->)]; [done|].
      by apply store_ok_append. }
  apply H; by simpl.
Qed.

Lemma table_is_append_only_witness :
  store_ok empty_store
  ∧ rows empty_store
      `prefix_of` rows (db (after_messages calm [sensor_data (real 31) (real 50)] fresh)).
Proof.
  assert (store_ok empty_store) as H by (split; intros; simplify_eq/=).
  split; [exact H|].
  exact (proj1 (table_is_append_only calm empty_store [] [sensor_data (real 31) (real 50)] H)).
Defined.




(** ** The log *)

Lemma applied_logs w d t h s :
  list_logs (applied w d t h s)
  = list_logs s ++ (if ge_threshold t
                    then [(now w (S (clock_reads s)), HighTemperature t)] else []).
Proof.
  unfold applied, relayed, warned. destruct (ge_threshold t); simpl; [done|].
  by rewrite app_nil_r.
Qed.

Lemma handle_message_logs w m s :
  ∃ lines, list_logs (handle_message w m s).2 = list_logs s ++ lines
           ∧ (length lines ≤ 1)%nat.
Proof.
  assert (∀ s' : ACDashboard, list_logs s' = list_logs s →
            ∃ lines, list_logs s' = list_logs s ++ lines ∧ (length lines ≤ 1)%nat) as Hno.
  { intros s' ->. exists []. rewrite app_nil_r. split; [done|simpl; lia]. }
  destruct m as [| | | | | |d]; try by apply Hno.
  rewrite handle_message_cases.
  destruct (Py.eq_str _ "sensor").
  - rewrite sensor_reading_cases. cbv zeta.
    destruct (_ && _); [|by apply Hno].
    destruct (Py.format_1f _); [by apply Hno|].
    destruct (Py.format_1f _); [by apply Hno|].
    rewrite (preserves_save_db list_logs) by done. rewrite applied_logs.
    eexists. split; [done|]. destruct (ge_threshold _); simpl; lia.
  - destruct (Py.eq_str _ "button_pressed"); [|by apply Hno].
    rewrite button_press_cases. simpl. eexists. split; [done|]. simpl; lia.
Qed.

(** X7. A reading whose temperature and humidity are numbers logs the
    high-temperature warning exactly when its temperature reaches the
    threshold, once, stamped with the clock read that follows the one of
    the history entry; a colder reading logs nothing. No run of the loop
    body removes or rewrites a logged line, and none adds more than one. *)
Theorem warning_logged_iff_hot (w : world) (s : ACDashboard)
    (d : gmap string pyval) (t h : pyval) :
  d !! "type"%string = Some (PStr "sensor") →
  d !! "temperature"%string = Some t → d !! "humidity"%string = Some h →
  is_number t → is_number h →
  list_logs (handle_message w (PDict d) s).2
  = list_logs s ++ (if ge_threshold t
                    then [(now w (S (clock_reads s)), HighTemperature t)] else [])
  ∧ (∀ w0 m s0, ∃ lines, list_logs (handle_message w0 m s0).2 = list_logs s0 ++ lines
                         ∧ (length lines ≤ 1)%nat).
Proof.
  intros Hty Ht Hh Ft Fh. split; [|intros; apply handle_message_logs].
  rewrite (handle_message_sensor _ _ _ Hty), (sensor_reading_numbers _ _ _ _ _ Ht Hh Ft Fh).
  rewrite (preserves_save_db list_logs) by done. apply applied_logs.
Qed.

Lemma warning_logged_iff_hot_witness :
  (sensor_fields (real 31) (real 50) !! "type"%string = Some (PStr "sensor")
   ∧ sensor_fields (real 31) (real 50) !! "temperature"%string = Some (real 31)
   ∧ sensor_fields (real 31) (real 50) !! "humidity"%string = Some (real 50)
   ∧ is_number (real 31) ∧ is_number (real 50))
  ∧ list_logs (handle_message calm (sensor_data (real 31) (real 50)) fresh).2
    = [(noon, HighTemperature (real 31))].
Proof.
  split; [by repeat split|].
  exact (proj1 (warning_logged_iff_hot calm fresh (sensor_fields (real 31) (real 50))
                  (real 31) (real 50) eq_refl eq_refl eq_refl eq_refl eq_refl)).
Defined.

(** ** Button presses *)

(** X8. Two button presses cancel: after the second the relay is ON exactly
    if it was before the first, the indicator shows it, and two lines were
    logged, naming the state after each press. *)
Theorem two_presses_cancel (w : world) (s : ACDashboard) (d1 d2 : gmap string pyval) :
  d1 !! "type"%string = Some (PStr "button_pressed") →
  d2 !! "type"%string = Some (PStr "button_pressed") →
  let s1 := (handle_message w (PDict d1) s).2 in
  let s2 := (handle_message w (PDict d2) s1).2 in
  relay_on s2 = PBool (Py.truth (relay_on s))
  ∧ relay_indicator s2 = (if Py.truth (relay_on s) then green else gray)
  ∧ list_logs s2 = list_logs s ++
      [(now w (clock_reads s), ButtonPressReceived (negb (Py.truth (relay_on s))));
       (now w (S (clock_reads s)), ButtonPressReceived (Py.truth (relay_on s)))].
Proof.
  intros H1 H2. cbv zeta.
  rewrite (handle_message_button _ _ _ H1), (handle_message_button _ _ _ H2).
  rewrite !button_press_cases. simpl.
  rewrite <- app_assoc. simpl. by destruct (Py.truth (relay_on s)).
Qed.

Lemma two_presses_cancel_witness :
  ({[ "type"%string := PStr "button_pressed" ]} : gmap string pyval) !! "type"%string
    = Some (PStr "button_pressed")
  ∧ relay_on (handle_message calm button_data (handle_message calm button_data fresh).2).2
    = PBool false.
Proof.
  split; [done|].
  exact (proj1 (two_presses_cancel calm fresh {[ "type"%string := PStr "button_pressed" ]}
                  {[ "type"%string := PStr "button_pressed" ]} eq_refl eq_refl)).
Defined.

(** ** Runs of the loop, one after the other *)

Lemma handle_each_app w a b s :
  handle_each w (a ++ b) s =
  match handle_each w a s with
  | (Returned _, s', _) => handle_each w b s'
  | (Raised e, s', pending) => (Raised e, s', pending ++ b)
  end.
Proof.
  revert s. induction a as [|m a IH]; intros s; [done|].
  simpl. destruct (handle_message w m s) as [[[]|e] s1]; [apply IH|done].
Qed.

Lemma handle_each_queue w msgs s :
  mqtt_queue (handle_each w msgs s).1.2 = mqtt_queue s.
Proof.
  revert s. induction msgs as [|m msgs IH]; intros s; [done|].
  simpl. pose proof (preserves_queue_handle_message w m s) as Hq.
  destruct (handle_message w m s) as [[[]|e] s1]; simpl in *; [|done].
  by rewrite IH.
Qed.

Lemma handle_each_raised w msgs s e s' pending :
  handle_each w msgs s = (Raised e, s', pending) →
  ∃ handled bad s0,
    msgs = handled ++ bad :: pending
    ∧ handle_each w handled s = (Returned tt, s0, [])
    ∧ handle_message w bad s0 = (Raised e, s').
Proof.
  revert s. induction msgs as [|m msgs IH]; intros s; [done|].
  simpl. destruct (handle_message w m s) as [[[]|e1] s1] eqn:Em.
  - intros H. destruct (IH _ H) as (handled & bad & s0 & -> & Hh & Hb).
    exists (m :: handled), bad, s0. simpl. by rewrite Em.
  - intros [= -> -> ->]. by exists [], m, s.
Qed.

(** X9. Where the timer ticks fall does not matter: if a run on the
    messages [msgs1] returns, then a later run on the messages [msgs2]
    that arrived meanwhile leaves the dashboard exactly as one run on
    [msgs1] followed by [msgs2] would have. *)
Theorem runs_compose (w : world) (s s1 : ACDashboard) (msgs1 msgs2 : list pyval) :
  mqtt_queue s = [] →
  process_mqtt_queue w (enqueue_all msgs1 s) = (Returned tt, s1) →
  process_mqtt_queue w (enqueue_all msgs2 s1)
  = process_mqtt_queue w (enqueue_all (msgs1 ++ msgs2) s).
Proof.
  intros Hq. rewrite !(process_mqtt_queue_enqueued _ _ _ Hq), handle_each_app.
  pose proof (handle_each_queue w msgs1 s) as Hq1.
  destruct (handle_each w msgs1 s) as [[o s'] pending] eqn:E1. simpl in Hq1.
  intros [= -> <-].
  rewrite (handle_each_returned _ _ _ _ _ E1).
  assert (set_mqtt_queue [] s' = s') as -> by (rewrite <- Hq, <- Hq1; apply set_mqtt_queue_same).
  apply process_mqtt_queue_enqueued. by rewrite Hq1.
Qed.

Lemma runs_compose_witness :
  (mqtt_queue fresh = []
   ∧ process_mqtt_queue calm (enqueue_all [button_data] fresh)
     = (Returned tt, (handle_message calm button_data fresh).2))
  ∧ process_mqtt_queue calm
      (enqueue_all [button_data] (handle_message calm button_data fresh).2)
    = process_mqtt_queue calm (enqueue_all ([button_data] ++ [button_data]) fresh).
Proof.
  split; [done|].
  exact (runs_compose calm fresh _ [button_data] [button_data] eq_refl eq_refl).
Defined.

(** X10. A run that raises stops at the message that raised: every message
    queued ahead of it was handled, the message itself is gone from the
    queue (a later run will not retry it), and the messages queued behind
    it are still there, all of them, in order. *)
Theorem aborted_run_keeps_the_rest (w : world) (s s1 : ACDashboard) (msgs : list pyval)
    (e : exn) :
  mqtt_queue s = [] →
  process_mqtt_queue w (enqueue_all msgs s) = (Raised e, s1) →
  ∃ handled bad s0,
    msgs = handled ++ bad :: mqtt_queue s1
    ∧ handle_each w handled s = (Returned tt, s0, [])
    ∧ (handle_message w bad s0).1 = Raised e
    ∧ s1 = set_mqtt_queue (mqtt_queue s1) (handle_message w bad s0).2.
Proof.
  intros Hq. rewrite (process_mqtt_queue_enqueued _ _ _ Hq).
  destruct (handle_each w msgs s) as [[o s'] pending] eqn:E1.
  intros [= -> <-].
  destruct (handle_each_raised _ _ _ _ _ _ E1) as (handled & bad & s0 & -> & Hh & Hb).
  exists handled, bad, s0. simpl. by rewrite Hb.
Qed.

Lemma aborted_run_keeps_the_rest_witness :
  (mqtt_queue fresh = []
   ∧ (process_mqtt_queue calm
        (enqueue_all [sensor_data (PStr "hot") (real 50); button_data] fresh)).1
     = Raised ValueError)
  ∧ ∃ handled bad,
      [sensor_data (PStr "hot") (real 50); button_data]
      = handled ++ bad :: [button_data].
Proof.
  split; [done|].
  destruct (aborted_run_keeps_the_rest calm fresh
              (process_mqtt_queue calm
                 (enqueue_all [sensor_data (PStr "hot") (real 50); button_data] fresh)).2
              [sensor_data (PStr "hot") (real 50); button_data] ValueError eq_refl eq_refl)
    as (handled & bad & s0 & H & _).
  by exists handled, bad.
Defined.

(** ** Events of the MQTT client *)

Lemma process_one_unrecognised w s m :
  mqtt_queue s = [] → unrecognised m →
  process_mqtt_queue w (put m s) = (Returned tt, s).
Proof.
  intros Hq Hm. change (put m s) with (enqueue_all [m] s).
  rewrite (process_mqtt_queue_enqueued _ _ _ Hq). simpl.
  rewrite (handle_message_unrecognised _ _ _ Hm).
  rewrite <- Hq. by rewrite set_mqtt_queue_same.
Qed.

Lemma unrecognised_sys (fields : gmap string pyval) :
  unrecognised (PDict (<[ "type"%string := PStr "sys" ]> fields)).
Proof.
  intros d [= <-]. unfold Py.get. rewrite lookup_insert_eq. simpl. split; congruence.
Qed.

(** X11. The events the MQTT client itself queues (connected,
    connect_failed, disconnected, publish_error, and the connect_error of
    its constructor) leave no trace: the run that takes one from the queue
    returns, and the dashboard is exactly what it was before the event was
    queued, nothing logged or displayed. *)
Theorem client_events_leave_no_trace (w : world) (s : ACDashboard) (rc : Z)
    (failure : option string) (store : DataManager) :
  mqtt_queue s = [] →
  process_mqtt_queue w (on_connect rc s) = (Returned tt, s)
  ∧ process_mqtt_queue w (on_disconnect rc s) = (Returned tt, s)
  ∧ process_mqtt_queue w (publish failure s) = (Returned tt, s)
  ∧ process_mqtt_queue w (ACDashboard_init store (MqttClientWrapper_init failure))
    = (Returned tt, ACDashboard_init store []).
Proof.
  intros Hq. split; [|split; [|split]].
  - apply process_one_unrecognised; [done|apply unrecognised_sys].
  - apply process_one_unrecognised; [done|apply unrecognised_sys].
  - destruct failure as [error|]; simpl.
    + apply process_one_unrecognised; [done|apply unrecognised_sys].
    + unfold process_mqtt_queue. rewrite Hq. simpl. unfold empty. by rewrite Hq.
  - destruct failure as [error|]; simpl; [|done].
    change (ACDashboard_init store [connect_error error])
      with (put (connect_error error) (ACDashboard_init store [])).
    apply process_one_unrecognised; [done|apply unrecognised_sys].
Qed.

Lemma client_events_leave_no_trace_witness :
  mqtt_queue fresh = []
  ∧ process_mqtt_queue calm (on_connect 5 fresh) = (Returned tt, fresh).
Proof.
  split; [done|].
  exact (proj1 (client_events_leave_no_trace calm fresh 5 None empty_store eq_refl)).
Defined.

(** ** The plot and the tick *)

(** X12. Whatever messages were processed, [update_plot] draws two curves
    over one x axis [0, 1, ..., n-1] where [n], at most 200, is the length
    of both the temperature and the humidity series: x and y never differ
    in length. *)
Theorem plot_series_aligned (w : world) (store : DataManager) (pending msgs : list pyval) :
  let s := after_messages w msgs (ACDashboard_init store pending) in
  ∃ n, (n ≤ 200)%nat
       ∧ Forall (λ c, plot_x c = seq 0 n ∧ length (plot_y c) = n) (update_plot s)
       ∧ plot_y <$> update_plot s = [items (temps s); items (hums s)].
Proof.
  intros s.
  destruct (history_inv_after_messages w msgs _ (history_inv_init store pending))
    as (Hm & _ & _ & _ & Hl & E2 & E3).
  fold s in Hm, Hl, E2, E3.
  exists (length (items (temps s))). split; [lia|]. split; [|done].
  unfold update_plot. repeat constructor; simpl. lia.
Qed.

(** X13. A tick with nothing in the queue: [on_update] returns, having
    overwritten [self.temp] and [self.hum] with the simulated values and
    nothing else: the labels, the relay, the history, the table and the log
    are as before (the labels keep showing the last reading processed, not
    [self.temp] and [self.hum]). This holds also when publishing failed,
    as the publish_error event is consumed by the same tick. *)
Theorem idle_tick (w : world) (s : ACDashboard) (t h : Q) (failure : option string) :
  mqtt_queue s = [] →
  on_update w t h failure s
  = (Returned (update_plot s), set_hum (real h) (set_temp (real t) s)).
Proof.
  intros Hq. unfold on_update, simulate_sensor.
  unfold bind at 1 3 4, assign. simpl. unfold bind, read.
  assert (process_mqtt_queue w (publish failure (set_hum (real h) (set_temp (real t) s)))
          = (Returned tt, set_hum (real h) (set_temp (real t) s))) as ->; [|done].
  destruct failure as [error|]; simpl.
  - apply process_one_unrecognised; [done|apply unrecognised_sys].
  - unfold process_mqtt_queue. simpl. rewrite Hq. simpl. unfold empty. simpl. by rewrite Hq.
Qed.

Lemma idle_tick_witness :
  mqtt_queue fresh = []
  ∧ on_update calm 25 40 None fresh
    = (Returned (update_plot fresh), set_hum (real 40) (set_temp (real 25) fresh)).
Proof. split; [done|]. exact (idle_tick calm fresh 25 40 None eq_refl). Defined.

(** ** Readings that end in an exception *)

Lemma reading_insert w d t h s b :
  d !! "type"%string = Some (PStr "sensor") →
  d !! "temperature"%string = Some t → d !! "humidity"%string = Some h →
  is_number t → is_number h →
  Py.or_ (PBool (ge_threshold t)) (Py.get d "manual_override" (PBool false)) = PBool b →
  handle_message w (PDict d) s =
  db_insert w (strftime "%Y-%m-%d %H:%M:%S" (now w (clock_reads (applied w d t h s))))
    t h (Z.b2z b)
    (set_clock_reads (S (clock_reads (applied w d t h s))) (applied w d t h s)).
Proof.
  intros Hty Ht Hh Ft Fh Hb.
  rewrite (handle_message_sensor _ _ _ Hty), (sensor_reading_numbers _ _ _ _ _ Ht Hh Ft Fh).
  rewrite save_db_cases. cbv zeta.
  assert (relay_on (applied w d t h s) = PBool b) as -> by (by rewrite <- Hb).
  done.
Qed.

Lemma applied_history w d t h s :
  times (applied w d t h s) = deque_append (strftime "%H:%M:%S" (now w (clock_reads s))) (times s)
  ∧ temps (applied w d t h s) = deque_append t (temps s)
  ∧ hums (applied w d t h s) = deque_append h (hums s)
  ∧ relay_on (applied w d t h s)
    = Py.or_ (PBool (ge_threshold t)) (Py.get d "manual_override" (PBool false)).
Proof. unfold applied, relayed, warned. by destruct (ge_threshold t). Qed.




(** X15. A sensor message whose temperature is present but is no number
    (a text, a list, a dict, an [int] too large for a [float]) makes the
    loop body raise at the first label, after [self.temp] and [self.hum]
    were overwritten with the message's values and before anything else
    changed; when only the humidity is no number, the temperature label
    has been updated as well. A text raises [ValueError]. *)
Theorem malformed_reading_raises (w : world) (s : ACDashboard)
    (d : gmap string pyval) (t h : pyval) (e : exn) :
  d !! "type"%string = Some (PStr "sensor") →
  d !! "temperature"%string = Some t → d !! "humidity"%string = Some h →
  t ≠ PNone → h ≠ PNone →
  (Py.format_1f t = Some e →
   handle_message w (PDict d) s = (Raised e, set_hum h (set_temp t s)))
  ∧ (Py.format_1f t = None → Py.format_1f h = Some e →
     handle_message w (PDict d) s = (Raised e, set_lbl_temp t (set_hum h (set_temp t s))))
  ∧ (∀ x, t = PStr x → (handle_message w (PDict d) s).1 = Raised ValueError).
Proof.
  intros Hty Ht Hh Nt Nh.
  assert (handle_message w (PDict d) s =
          match Py.format_1f t with
          | Some e => (Raised e, set_hum h (set_temp t s))
          | None =>
            match Py.format_1f h with
            | Some e => (Raised e, set_lbl_temp t (set_hum h (set_temp t s)))
            | None => save_db w t h (applied w d t h s)
            end
          end) as E.
  { rewrite (handle_message_sensor _ _ _ Hty), sensor_reading_cases. cbv zeta.
    replace (Py.get d "temperature" PNone) with t by (unfold Py.get; by rewrite Ht).
    replace (Py.get d "humidity" PNone) with h by (unfold Py.get; by rewrite Hh).
    assert (Py.is_not_None t = true) as -> by (by destruct t).
    assert (Py.is_not_None h = true) as -> by (by destruct h).
    done. }
  rewrite E. split; [|split].
  - by intros ->.
  - by intros -> ->.
  - by intros x ->.
Qed.

Lemma malformed_reading_raises_witness :
  let d := sensor_fields (PStr "hot") (real 50) in
  (d !! "type"%string = Some (PStr "sensor")
   ∧ d !! "temperature"%string = Some (PStr "hot") ∧ d !! "humidity"%string = Some (real 50)
   ∧ PStr "hot" ≠ PNone ∧ real 50 ≠ PNone)
  ∧ (handle_message calm (PDict d) fresh).1 = Raised ValueError.
Proof.
  intros d. split; [by repeat split|].
  exact (proj2 (proj2 (malformed_reading_raises calm fresh d (PStr "hot") (real 50) ValueError
                         eq_refl eq_refl eq_refl ltac:(done) ltac:(done)))
           "hot"%string eq_refl).
Defined.

(** X16. A reading whose temperature is an integer of 2^63 or more (yet
    small enough for a [float]) is displayed, recorded in the history and
    turns the relay ON, and then raises [OverflowError] at the insert,
    whatever the state of the storage engine: the table does not take it. *)
Theorem oversized_int_reading (w : world) (s : ACDashboard)
    (d : gmap string pyval) (z : Z) (h : pyval) :
  d !! "type"%string = Some (PStr "sensor") →
  d !! "temperature"%string = Some (PInt z) → d !! "humidity"%string = Some h →
  2 ^ 63 ≤ z → Py.int_fits_float z = true → is_number h →
  let r := handle_message w (PDict d) s in
  r.1 = Raised OverflowError
  ∧ db r.2 = db s
  ∧ relay_on r.2 = PBool true
  ∧ lbl_temp r.2 = PInt z
  ∧ temps r.2 = deque_append (PInt z) (temps s).
Proof.
  intros Hty Ht Hh Hz Hfit Fh.
  assert (is_number (PInt z)) as Ft by (unfold is_number; simpl; by rewrite Hfit).
  assert (ge_threshold (PInt z) = true) as Hhot.
  { unfold ge_threshold. simpl. apply Qle_bool_iff. unfold Qle, TEMP_THRESHOLD. simpl.
    assert (2 ^ 63 = 9223372036854775808) as E by done. lia. }
  assert (Py.or_ (PBool (ge_threshold (PInt z))) (Py.get d "manual_override" (PBool false))
          = PBool true) as Eb by (by rewrite Hhot).
  cbv zeta. rewrite (reading_insert _ _ _ _ _ _ Hty Ht Hh Ft Fh Eb).
  destruct (applied_frame w d (PInt z) h s) as (Ad & _ & _ & _ & _ & Al & _).
  destruct (applied_history w d (PInt z) h s) as (_ & Hts & _ & Hr).
  rewrite Eb in Hr.
  remember (applied w d (PInt z) h s) as s1 eqn:Es1. clear Es1.
  unfold db_insert, DataManager_insert. simpl.
  assert (int64 z = false) as ->.
  { unfold int64. apply andb_false_iff. right. apply Z.ltb_ge. done. }
  simpl. by rewrite Ad, Hr, Al, Hts.
Qed.

Lemma oversized_int_reading_witness :
  let d := sensor_fields (PInt (2 ^ 63)) (real 50) in
  (d !! "type"%string = Some (PStr "sensor")
   ∧ d !! "temperature"%string = Some (PInt (2 ^ 63))
   ∧ d !! "humidity"%string = Some (real 50)
   ∧ 2 ^ 63 ≤ 2 ^ 63 ∧ Py.int_fits_float (2 ^ 63) = true ∧ is_number (real 50))
  ∧ (handle_message calm (PDict d) fresh).1 = Raised OverflowError.
Proof.
  intros d. split; [by repeat split|].
  exact (proj1 (oversized_int_reading calm fresh d (2 ^ 63) (real 50)
                  eq_refl eq_refl eq_refl ltac:(done) eq_refl eq_refl)).
Defined.

(** ** An override that is no boolean *)

(** X17. Below the threshold the relay state is the override object itself,
    whatever it is: [or] hands its right operand on unchanged. The relay
    counts as ON when that object is true, while the table gets [int] of it:
    when [int] rejects the object the reading is applied but the loop body
    raises and nothing is stored; when [int] gives [z] (and the table takes
    the reading) the row's [relay_status] is [z], which need not be 1 for a
    relay that is ON (for the override 0.5 it is 0). *)
Theorem override_object_becomes_relay_state (w : world) (s : ACDashboard)
    (d : gmap string pyval) (t h v : pyval) :
  d !! "type"%string = Some (PStr "sensor") →
  d !! "temperature"%string = Some t → d !! "humidity"%string = Some h →
  is_number t → is_number h → ge_threshold t = false →
  d !! "manual_override"%string = Some v →
  let r := handle_message w (PDict d) s in
  relay_on r.2 = v
  ∧ relay_indicator r.2 = (if Py.truth v then green else gray)
  ∧ (∀ e, Py.int_ (int_of_str w) v = inl e → r.1 = Raised e ∧ db r.2 = db s)
  ∧ (∀ z, Py.int_ (int_of_str w) v = inr z →
          sql_number t = true → sql_number h = true → int64 z = true →
          storage_fault w (insert_calls s) = false →
          r.1 = Returned tt
          ∧ ∃ row, rows (db r.2) = rows (db s) ++ [row] ∧ relay_status row = z).
Proof.
  intros Hty Ht Hh Ft Fh Hcold Hv. cbv zeta.
  rewrite (handle_message_sensor _ _ _ Hty), (sensor_reading_numbers _ _ _ _ _ Ht Hh Ft Fh).
  rewrite (preserves_save_db relay_on), (preserves_save_db relay_indicator) by done.
  rewrite save_db_cases. cbv zeta.
  destruct (applied_frame w d t h s) as (Ad & _ & Ai & _).
  destruct (applied_history w d t h s) as (_ & _ & _ & Hr).
  assert (relay_indicator (applied w d t h s)
          = if Py.truth (relay_on (applied w d t h s)) then green else gray) as Hi.
  { unfold applied, relayed. done. }
  rewrite Hcold in Hr. unfold Py.get in Hr. rewrite Hv in Hr.
  change (Py.or_ (PBool false) (default (PBool false) (Some v))) with v in Hr.
  rewrite Hi, Hr.
  remember (applied w d t h s) as s1 eqn:Es1. clear Es1.
  split; [done|]. split; [done|]. split.
  - intros e ->. simpl. by rewrite Ad.
  - intros z -> St Sh Hz Hf.
    unfold db_insert, DataManager_insert. simpl.
    rewrite (sql_number_bind _ St), (sql_number_bind _ Sh), Hz, Ai, Hf. simpl.
    split; [done|]. rewrite Ad. by eexists.
Qed.

Lemma override_object_becomes_relay_state_witness :
  let d := <[ "manual_override"%string := real (1 # 2) ]> (sensor_fields (real 25) (real 50)) in
  (d !! "type"%string = Some (PStr "sensor")
   ∧ d !! "temperature"%string = Some (real 25) ∧ d !! "humidity"%string = Some (real 50)
   ∧ is_number (real 25) ∧ is_number (real 50) ∧ ge_threshold (real 25) = false
   ∧ d !! "manual_override"%string = Some (real (1 # 2)))
  ∧ relay_on (handle_message calm (PDict d) fresh).2 = real (1 # 2)
  ∧ Py.truth (real (1 # 2)) = true
  ∧ Py.int_ (int_of_str calm) (real (1 # 2)) = inr 0.
Proof.
  intros d. split; [by repeat split|].
  split; [|done].
  exact (proj1 (override_object_becomes_relay_state calm fresh d (real 25) (real 50)
                  (real (1 # 2)) eq_refl eq_refl eq_refl eq_refl eq_refl eq_refl eq_refl)).
Defined.
